(** * AML dashboard: risk scoring, velocity check, alert and ledger stores

    A shallow embedding of [src/app.js] (class [AMLDashboard]).

    Conventions of the embedding.
    - JavaScript numbers that stay integral (scores, counters, epoch
      milliseconds) are [Z]; the amount and the results of [Math.random()]
      are doubles and are modelled by the rationals they denote ([Q]).
    - Arrays are lists with index 0 at the head, so [unshift] is [cons] and
      [slice(0, n)] is [take n].
    - The [Map] of pattern counters is a [gmap string Z].
    - The environment (the clock and [Math.random()]) is an explicit
      argument: every reading the code takes is a field of [Env].
    - The DOM, the charts and the display filters are not modelled; the
      functions that only repaint are dropped from the bodies. *)

From Stdlib Require Import ZArith QArith Qround Lqa Lia DecimalString.
From stdpp Require Import gmap strings list.

Open Scope string_scope.
Open Scope list_scope.
Open Scope Z_scope.

(** ** Data model *)

Inductive RiskLevel := Low | Medium | High | Critical.

#[global] Instance RiskLevel_eq_dec : EqDecision RiskLevel.
Proof. solve_decision. Defined.

(** [generatePersonData]: the three fields of a party. *)
Record Person := {
  p_name : string;
  p_account : string;
  p_type : string
}.

(** The object built in [generateTransaction] and mutated by
    [analyzeTransaction]. *)
Record Transaction := {
  tx_id : string;
  tx_timestamp : Z;
  tx_amount : Q;
  tx_currency : string;
  tx_paymentMethod : string;
  tx_sender : Person;
  tx_receiver : Person;
  tx_senderLocation : string;
  tx_receiverLocation : string;
  tx_riskScore : Z;
  tx_riskLevel : RiskLevel;
  tx_patterns : list string;
  tx_riskFactors : list string
}.

(** The five templates of [generateAlertDescription], with the values they
    interpolate. *)
Inductive AlertDescription :=
| DescHighRisk (currency : string) (amount : Q)
| DescSuspiciousPattern (senderLocation : string)
| DescMultipleFactors (paymentMethod : string)
| DescVelocityThreshold (accountTail : string)
| DescGeographicRisk.

Record AlertType := {
  at_type : string;
  at_icon : string;
  at_priority : string
}.

Record Alert := {
  al_id : string;
  al_timestamp : Z;
  al_transactionId : string;
  al_type : string;
  al_icon : string;
  al_priority : string;
  al_description : AlertDescription;
  al_acknowledged : bool
}.

(** The data fields of the dashboard object. *)
Record Dashboard := {
  transactions : list Transaction;
  alerts : list Alert;
  patterns : gmap string Z;
  isRunning : bool;
  totalProcessed : Z
}.

(** What the environment answers during one call of [generateTransaction]:
    the readings of [Date.now()] / [new Date()] and of [Math.random()], in
    the order the code takes them. *)
Record Env := {
  velocityNow : Z;
  rLayering : Q;
  rSmurfing : Q;
  rJitter : Q;
  rAlertType : Q;
  alertIdNow : Z;
  rAlertId : Q;
  alertTimestamp : Z;
  rDescription : Q
}.

(** The fields [generateTransaction] draws for a new transaction. *)
Record Generated := {
  g_id : string;
  g_timestamp : Z;
  g_amount : Q;
  g_currency : string;
  g_paymentMethod : string;
  g_sender : Person;
  g_receiver : Person;
  g_senderLocation : string;
  g_receiverLocation : string
}.

(** The document [exportSAR] serialises. *)
Record SarEntry := {
  sar_id : string;
  sar_timestamp : Z;
  sar_amount : Q;
  sar_currency : string;
  sar_riskScore : Z;
  sar_patterns : list string;
  sar_riskFactors : list string
}.

Record SarData := {
  reportDate : Z;
  totalTransactions : Z;
  sar_transactions : list SarEntry
}.

(** ** Constants of the constructor *)

Definition amlPatterns : list (string * RiskLevel) :=
  [ ("Structuring", High); ("Layering", Critical); ("Smurfing", High);
    ("Large Cash", Medium); ("Geographic Risk", Medium); ("Velocity", High);
    ("Round Amount", Low) ].

Definition highRiskCountries : list string :=
  [ "North Korea"; "Iran"; "Afghanistan"; "Myanmar"; "Syria"; "Somalia";
    "Yemen"; "Libya" ].

Definition alertTypes : list AlertType :=
  [ {| at_type := "Suspicious Pattern"; at_icon := "⚠️"; at_priority := "high" |};
    {| at_type := "Threshold Exceeded"; at_icon := "📊"; at_priority := "medium" |};
    {| at_type := "Geographic Risk"; at_icon := "🌍"; at_priority := "medium" |};
    {| at_type := "Velocity Alert"; at_icon := "⚡"; at_priority := "high" |};
    {| at_type := "Customer Risk"; at_icon := "👤"; at_priority := "high" |} ].

(** ** Numbers and strings *)

Definition Qltb (x y : Q) : bool := negb (Qle_bool y x).

(** Rounding towards zero, as in the quotient of [%]. *)
Definition Qtruncate (x : Q) : Z := Z.quot (Qnum x) (Zpos (Qden x)).

(** [a % b] on numbers. *)
Definition jsRem (a b : Q) : Q := (a - b * inject_Z (Qtruncate (a / b)))%Q.

(** The decimal digits of an integer, as a template literal prints it. *)
Definition decimal (z : Z) : string := NilZero.string_of_int (Z.to_int z).

(** [Math.floor(Math.random() * n)] for a reading [r] of [Math.random()]. *)
Definition randomIndex (r : Q) (n : Z) : Z := Qfloor (r * inject_Z n).

(** [s.includes(sub)]. *)
Fixpoint includes (s sub : string) : bool :=
  String.prefix sub s ||
  match s with
  | EmptyString => false
  | String _ s' => includes s' sub
  end.

(** [s.slice(-n)]: the last [n] characters. *)
Definition sliceLast (n : nat) (s : string) : string :=
  String.substring (String.length s - n) n s.

(** ** Store updates *)

Definition set_transactions (st : Dashboard) (l : list Transaction) : Dashboard :=
  {| transactions := l; alerts := alerts st; patterns := patterns st;
     isRunning := isRunning st; totalProcessed := totalProcessed st |}.

Definition set_alerts (st : Dashboard) (l : list Alert) : Dashboard :=
  {| transactions := transactions st; alerts := l; patterns := patterns st;
     isRunning := isRunning st; totalProcessed := totalProcessed st |}.

Definition set_patterns (st : Dashboard) (m : gmap string Z) : Dashboard :=
  {| transactions := transactions st; alerts := alerts st; patterns := m;
     isRunning := isRunning st; totalProcessed := totalProcessed st |}.

Definition set_isRunning (st : Dashboard) (b : bool) : Dashboard :=
  {| transactions := transactions st; alerts := alerts st; patterns := patterns st;
     isRunning := b; totalProcessed := totalProcessed st |}.

Definition set_totalProcessed (st : Dashboard) (n : Z) : Dashboard :=
  {| transactions := transactions st; alerts := alerts st; patterns := patterns st;
     isRunning := isRunning st; totalProcessed := n |}.

(** ** Velocity check *)

(** The callback of the [filter] in [checkVelocity].  [now] is the reading
    of [Date.now()]; the readings taken during one pass of the filter are
    taken to be equal. *)
Definition isRecent (transaction : Transaction) (now : Z) (t : Transaction) : bool :=
  String.eqb (p_account (tx_sender t)) (p_account (tx_sender transaction))
  && (now - tx_timestamp t <? 3600000).

Definition recentTransactions (st : Dashboard) (transaction : Transaction) (now : Z)
  : list Transaction :=
  List.filter (isRecent transaction now) (transactions st).

Definition checkVelocity (st : Dashboard) (transaction : Transaction) (now : Z) : bool :=
  5 <? Z.of_nat (length (recentTransactions st transaction now)).

(** ** Risk scoring *)

(** The three accumulators of [analyzeTransaction]: the local [riskScore],
    the local [riskFactors] and the transaction's own [patterns] array. *)
Record Scoring := {
  sc_riskScore : Z;
  sc_riskFactors : list string;
  sc_patterns : list string
}.

(** The body of one rule: [riskScore += delta], [riskFactors.push(factor)]
    and, for the rules that have a tag, [transaction.patterns.push(tag)]. *)
Definition fire (delta : Z) (factor : string) (tag : option string) (a : Scoring)
  : Scoring :=
  {| sc_riskScore := sc_riskScore a + delta;
     sc_riskFactors := sc_riskFactors a ++ [factor];
     sc_patterns := match tag with
                    | Some p => sc_patterns a ++ [p]
                    | None => sc_patterns a
                    end |}.

Definition rule (cond : bool) (delta : Z) (factor : string) (tag : option string)
    (a : Scoring) : Scoring :=
  if cond then fire delta factor tag a else a.

(** The doubles written [0.05] and [0.03]. *)
Definition layeringRate : Q := 3602879701896397 # 72057594037927936.
Definition smurfingRate : Q := 1080863910568919 # 36028797018963968.

Definition geographicRisk (transaction : Transaction) : bool :=
  existsb (fun country =>
             includes (tx_senderLocation transaction) country
             || includes (tx_receiverLocation transaction) country)
          highRiskCountries.

(** The nine [if] statements of [analyzeTransaction], in order. *)
Definition applyRules (st : Dashboard) (transaction : Transaction) (env : Env)
  : Scoring :=
  let amount := tx_amount transaction in
  let method := tx_paymentMethod transaction in
  let a := {| sc_riskScore := 0; sc_riskFactors := [];
              sc_patterns := tx_patterns transaction |} in
  let a := rule (Qltb (100000#1) amount)
             30 "Large amount transaction" None a in
  let a := rule (Qeq_bool (jsRem amount (1000#1)) (0#1) && Qltb (5000#1) amount)
             15 "Suspicious round amount" (Some "Round Amount") a in
  let a := rule (Qle_bool (9000#1) amount && Qltb amount (10000#1))
             40 "Amount just under reporting threshold" (Some "Structuring") a in
  let a := rule (geographicRisk transaction)
             25 "High-risk jurisdiction involved" (Some "Geographic Risk") a in
  let a := rule (String.eqb method "Cash Deposit" && Qltb (5000#1) amount)
             20 "Large cash transaction" (Some "Large Cash") a in
  let a := rule (String.eqb method "Cryptocurrency")
             15 "Cryptocurrency transaction" None a in
  let a := rule (checkVelocity st transaction (velocityNow env))
             35 "High transaction velocity detected" (Some "Velocity") a in
  let a := rule (Qltb (rLayering env) layeringRate)
             50 "Complex layering pattern detected" (Some "Layering") a in
  let a := rule (Qltb (rSmurfing env) smurfingRate)
             45 "Potential smurfing activity" (Some "Smurfing") a in
  a.

(** [Math.random() * 10 - 5]. *)
Definition jitter (env : Env) : Q := (rJitter env * (10#1) - (5#1))%Q.

(** [riskScore += jitter; Math.max(1, Math.min(100, Math.floor(riskScore)))].
    The sum is taken exactly; the rounding of the double addition is not
    modelled. *)
Definition finalScore (sum : Z) (env : Env) : Z :=
  Z.max 1 (Z.min 100 (Qfloor (inject_Z sum + jitter env))).

(** The [if / else if] chain that sets [transaction.riskLevel]. *)
Definition riskLevelOf (riskScore : Z) : RiskLevel :=
  if 76 <=? riskScore then Critical
  else if 51 <=? riskScore then High
  else if 26 <=? riskScore then Medium
  else Low.

(** The transaction object after the assignments of [riskScore],
    [riskFactors] and [riskLevel] (its [patterns] were pushed in place). *)
Definition assess (st : Dashboard) (transaction : Transaction) (env : Env)
  : Transaction :=
  let a := applyRules st transaction env in
  let riskScore := finalScore (sc_riskScore a) env in
  {| tx_id := tx_id transaction;
     tx_timestamp := tx_timestamp transaction;
     tx_amount := tx_amount transaction;
     tx_currency := tx_currency transaction;
     tx_paymentMethod := tx_paymentMethod transaction;
     tx_sender := tx_sender transaction;
     tx_receiver := tx_receiver transaction;
     tx_senderLocation := tx_senderLocation transaction;
     tx_receiverLocation := tx_receiverLocation transaction;
     tx_riskScore := riskScore;
     tx_riskLevel := riskLevelOf riskScore;
     tx_patterns := sc_patterns a;
     tx_riskFactors := sc_riskFactors a |}.

(** ** Alerts *)

(** [Math.random()] is at least 0 and below 1, so the index
    [randomIndex r 5] is in range and the default of [nth] is not reached. *)
Definition generateAlertDescription (transaction : Transaction) (r : Q)
  : AlertDescription :=
  let descriptions :=
    [ DescHighRisk (tx_currency transaction) (tx_amount transaction);
      DescSuspiciousPattern (tx_senderLocation transaction);
      DescMultipleFactors (tx_paymentMethod transaction);
      DescVelocityThreshold (sliceLast 6 (p_account (tx_sender transaction)));
      DescGeographicRisk ] in
  nth (Z.to_nat (randomIndex r 5)) descriptions DescGeographicRisk.

Definition newAlert (transaction : Transaction) (env : Env) : Alert :=
  let alertType :=
    nth (Z.to_nat (randomIndex (rAlertType env) 5)) alertTypes
        {| at_type := ""; at_icon := ""; at_priority := "" |} in
  {| al_id := "ALT" +:+ decimal (alertIdNow env)
                    +:+ decimal (randomIndex (rAlertId env) 1000);
     al_timestamp := alertTimestamp env;
     al_transactionId := tx_id transaction;
     al_type := at_type alertType;
     al_icon := at_icon alertType;
     al_priority := at_priority alertType;
     al_description := generateAlertDescription transaction (rDescription env);
     al_acknowledged := false |}.

Definition generateAlert (st : Dashboard) (transaction : Transaction) (env : Env)
  : Dashboard :=
  let alerts1 := newAlert transaction env :: alerts st in
  set_alerts st
    (if 50 <? Z.of_nat (length alerts1) then take 50 alerts1 else alerts1).

(** ** Pattern counters *)

(** The callback of [transaction.patterns.forEach]. *)
Definition incrementPattern (m : gmap string Z) (pattern : string) : gmap string Z :=
  let current := default 0 (m !! pattern) in
  <[pattern := current + 1]> m.

Definition updatePatternCounts (st : Dashboard) (tags : list string) : Dashboard :=
  set_patterns st (foldl incrementPattern (patterns st) tags).

(** ** analyzeTransaction *)

(** Returns the dashboard after the call and the transaction object as the
    call leaves it. *)
Definition analyzeTransaction (st : Dashboard) (transaction : Transaction) (env : Env)
  : Dashboard * Transaction :=
  let transaction' := assess st transaction env in
  let st1 := if 51 <=? tx_riskScore transaction'
             then generateAlert st transaction' env
             else st in
  let st2 := updatePatternCounts st1 (tx_patterns transaction') in
  (st2, transaction').

(** ** Ledger *)

Definition addTransaction (st : Dashboard) (transaction : Transaction) : Dashboard :=
  let transactions1 := transaction :: transactions st in
  let st1 := set_totalProcessed (set_transactions st transactions1)
                                (totalProcessed st + 1) in
  if 100 <? Z.of_nat (length transactions1)
  then set_transactions st1 (take 100 transactions1)
  else st1.

(** ** Acknowledging *)

(** [transactionId] is the value of the modal's [data-transaction-id]
    attribute, [None] when the attribute is absent.  [find] returns the
    first alert, by index, whose [transactionId] is that value; the
    assignment mutates that element of the array. *)
Definition setAcknowledged (a : Alert) : Alert :=
  {| al_id := al_id a; al_timestamp := al_timestamp a;
     al_transactionId := al_transactionId a; al_type := al_type a;
     al_icon := al_icon a; al_priority := al_priority a;
     al_description := al_description a;
     al_acknowledged := true |}.

Definition matchesId (transactionId : option string) (a : Alert) : bool :=
  match transactionId with
  | Some i => String.eqb (al_transactionId a) i
  | None => false
  end.

Fixpoint findIndex {A : Type} (f : A -> bool) (l : list A) : option nat :=
  match l with
  | [] => None
  | x :: l' => if f x then Some 0%nat else S <$> findIndex f l'
  end.

Definition acknowledgeAlert (st : Dashboard) (transactionId : option string)
  : Dashboard :=
  match findIndex (matchesId transactionId) (alerts st) with
  | Some i => set_alerts st (alter setAcknowledged i (alerts st))
  | None => st
  end.

Definition investigateTransaction (st : Dashboard) (transactionId : option string)
  : Dashboard :=
  acknowledgeAlert st transactionId.

(** ** Export *)

Definition isHighRisk (t : Transaction) : bool :=
  bool_decide (tx_riskLevel t = High) || bool_decide (tx_riskLevel t = Critical).

Definition sarEntry (t : Transaction) : SarEntry :=
  {| sar_id := tx_id t;
     sar_timestamp := tx_timestamp t;
     sar_amount := tx_amount t;
     sar_currency := tx_currency t;
     sar_riskScore := tx_riskScore t;
     sar_patterns := tx_patterns t;
     sar_riskFactors := tx_riskFactors t |}.

(** The object [sarData]; [now] is the reading of [new Date()].  Dates stand
    for their ISO strings. *)
Definition exportSAR (st : Dashboard) (now : Z) : SarData :=
  let highRiskTransactions := List.filter isHighRisk (transactions st) in
  {| reportDate := now;
     totalTransactions := Z.of_nat (length highRiskTransactions);
     sar_transactions := List.map sarEntry highRiskTransactions |}.

(** ** Generation loop *)

Definition initializePatterns (st : Dashboard) : Dashboard :=
  set_patterns st
    (foldl (fun m pattern => <[pattern.1 := 0]> m) (patterns st) amlPatterns).

(** The fields assigned in the constructor. *)
Definition emptyDashboard : Dashboard :=
  {| transactions := []; alerts := []; patterns := ∅;
     isRunning := true; totalProcessed := 0 |}.

(** The object literal of [generateTransaction]. *)
Definition newTransaction (g : Generated) : Transaction :=
  {| tx_id := g_id g;
     tx_timestamp := g_timestamp g;
     tx_amount := g_amount g;
     tx_currency := g_currency g;
     tx_paymentMethod := g_paymentMethod g;
     tx_sender := g_sender g;
     tx_receiver := g_receiver g;
     tx_senderLocation := g_senderLocation g;
     tx_receiverLocation := g_receiverLocation g;
     tx_riskScore := 0;
     tx_riskLevel := Low;
     tx_patterns := [];
     tx_riskFactors := [] |}.

Definition generateTransaction (st : Dashboard) (g : Generated) (env : Env)
  : Dashboard * Transaction :=
  analyzeTransaction st (newTransaction g) env.

(** The closure [generateInterval] of [startTransactionGeneration]; the
    re-arming of the timer is the next [TimerFires] event. *)
Definition generateInterval (st : Dashboard) (g : Generated) (env : Env) : Dashboard :=
  if isRunning st then
    let '(st1, transaction) := generateTransaction st g env in
    addTransaction st1 transaction
  else st.

Definition startTransactionGeneration := generateInterval.

Definition togglePause (st : Dashboard) (g : Generated) (env : Env) : Dashboard :=
  let st1 := set_isRunning st (negb (isRunning st)) in
  if isRunning st1 then startTransactionGeneration st1 g env else st1.

(** [init]: the steps that touch the data fields. *)
Definition init (g : Generated) (env : Env) : Dashboard :=
  startTransactionGeneration (initializePatterns emptyDashboard) g env.

(** What can happen to a constructed dashboard. *)
Inductive Event :=
| TimerFires (g : Generated) (env : Env)
| PauseClick (g : Generated) (env : Env)
| AcknowledgeClick (transactionId : option string)
| InvestigateClick (transactionId : option string)
| ExportClick (now : Z).

Definition step (st : Dashboard) (e : Event) : Dashboard :=
  match e with
  | TimerFires g env => generateInterval st g env
  | PauseClick g env => togglePause st g env
  | AcknowledgeClick i => acknowledgeAlert st i
  | InvestigateClick i => investigateTransaction st i
  | ExportClick _ => st
  end.

Definition run (st : Dashboard) (es : list Event) : Dashboard := foldl step st es.

(** * Vocabulary of the statements *)

(** What a rule adds to [riskScore]: its delta when its condition holds. *)
Definition delta (cond : bool) (d : Z) : Z := if cond then d else 0.

(** A transaction as [analyzeTransaction] leaves it: score in range, level
    read off the score. *)
Definition assessed (t : Transaction) : Prop :=
  1 <= tx_riskScore t <= 100 /\ tx_riskLevel t = riskLevelOf (tx_riskScore t).

(** The velocity count as the specification words it: the timestamps [t]
    of the account with [now - W <= t <= now]. *)
Definition countWithin_spec (ledger : list Transaction) (accountId : string)
    (now W : Z) : Z :=
  Z.of_nat (length (List.filter
    (fun t => String.eqb (p_account (tx_sender t)) accountId
              && (now - W <=? tx_timestamp t) && (tx_timestamp t <=? now))
    ledger)).

(** Being counted by [checkVelocity], as a proposition. *)
Definition inWindow (accountId : string) (now : Z) (t : Transaction) : Prop :=
  p_account (tx_sender t) = accountId /\ now - 3600000 < tx_timestamp t.

#[global] Instance inWindow_dec accountId now t : Decision (inWindow accountId now t).
Proof. unfold inWindow. apply _. Defined.

(** Sample values for the concrete instances. *)
Definition party (account : string) : Person :=
  {| p_name := "John Smith"; p_account := account; p_type := "Individual" |}.

Definition sampleGenerated (id : string) (timestamp : Z) (amount : Q)
    (method : string) (location : string) (account : string) : Generated :=
  {| g_id := id; g_timestamp := timestamp; g_amount := amount;
     g_currency := "USD"; g_paymentMethod := method;
     g_sender := party account; g_receiver := party "ACC777";
     g_senderLocation := location; g_receiverLocation := "Singapore" |}.

(** An environment whose draws trigger neither placeholder rule and whose
    jitter is [0]. *)
Definition calmEnv (now : Z) : Env :=
  {| velocityNow := now; rLayering := 1#2; rSmurfing := 1#2; rJitter := 1#2;
     rAlertType := 0#1; alertIdNow := now; rAlertId := 1#2;
     alertTimestamp := now; rDescription := 0#1 |}.

Definition withLedger (l : list Transaction) : Dashboard :=
  set_transactions (initializePatterns emptyDashboard) l.

(** Submitting transactions one after the other to a running dashboard:
    each pair is what one run of [generateInterval] draws. *)
Definition submit (st : Dashboard) (inputs : list (Generated * Env)) : Dashboard :=
  foldl (fun s ge => generateInterval s ge.1 ge.2) st inputs.

(** A submission of account [accountId] stamped no earlier than [T0]. *)
Definition fromAccountSince (accountId : string) (T0 : Z) (ge : Generated * Env)
  : Prop :=
  p_account (g_sender ge.1) = accountId /\ T0 <= g_timestamp ge.1.

#[global] Instance fromAccountSince_dec a T0 ge : Decision (fromAccountSince a T0 ge).
Proof. unfold fromAccountSince. apply _. Defined.

(** The tag list a rule contributes. *)
Definition tagIf (cond : bool) (tag : string) : list string :=
  if cond then [tag] else [].

(** [n] quiet 250 USD transfers of account ACC1, one second apart. *)
Definition burst (n : nat) : list (Generated * Env) :=
  List.map (fun i : nat =>
              let now := 1700000000000 + 1000 * Z.of_nat i in
              (sampleGenerated ("TXN" +:+ decimal now +:+ "7") now (250#1)
                               "ACH" "London, UK" "ACC1",
               calmEnv now))
           (seq 0 n).

(** A 9,500 USD cash deposit from a high-risk jurisdiction: three rules
    fire. *)
Definition riskyGenerated (id : string) (timestamp : Z) : Generated :=
  sampleGenerated id timestamp (9500#1) "Cash Deposit" "Tehran, Iran" "ACC9".

(** The acknowledge operation as the specification words it: the target is
    the first alert that matches the identifier and is not yet
    acknowledged. *)
Definition matchesUnacknowledged (transactionId : option string) (a : Alert) : bool :=
  matchesId transactionId a && negb (al_acknowledged a).

Definition acknowledge_spec (st : Dashboard) (transactionId : option string)
  : Dashboard :=
  match findIndex (matchesUnacknowledged transactionId) (alerts st) with
  | Some i => set_alerts st (alter setAcknowledged i (alerts st))
  | None => st
  end.

(** The tags of the catalog. *)
Definition catalogTags : list string := amlPatterns.*1.

(** The transactions an event sends through [generateTransaction] and
    [addTransaction], and those of a whole run, oldest first. *)
Definition processed (st : Dashboard) (e : Event) : list Transaction :=
  match e with
  | TimerFires g env =>
      if isRunning st then [assess st (newTransaction g) env] else []
  | PauseClick g env =>
      if isRunning st then [] else [assess st (newTransaction g) env]
  | _ => []
  end.

Fixpoint history (st : Dashboard) (es : list Event) : list Transaction :=
  match es with
  | [] => []
  | e :: es' => processed st e ++ history (step st e) es'
  end.

(** A transaction that arrives at [analyzeTransaction] with a tag of its
    own already in its [patterns] array. *)
Definition taggedTransaction (tag : string) : Transaction :=
  {| tx_id := "TXN17000000000001"; tx_timestamp := 1700000000000;
     tx_amount := 250#1; tx_currency := "USD"; tx_paymentMethod := "ACH";
     tx_sender := party "ACC1"; tx_receiver := party "ACC777";
     tx_senderLocation := "London, UK"; tx_receiverLocation := "Singapore";
     tx_riskScore := 0; tx_riskLevel := Low; tx_patterns := [tag];
     tx_riskFactors := [] |}.

(** Raising one alert per pair, in order. *)
Definition raise (st : Dashboard) (te : Transaction * Env) : Dashboard :=
  generateAlert st te.1 te.2.

(** [n] assessed transactions with distinct identifiers, and [n] alert
    requests for them. *)
Definition sampleTransactions (n : nat) : list Transaction :=
  List.map (fun i : nat =>
              let now := 1700000000000 + 1000 * Z.of_nat i in
              assess emptyDashboard
                     (newTransaction (riskyGenerated ("TXN" +:+ decimal now +:+ "7") now))
                     (calmEnv now))
           (seq 0 n).

Definition sampleRaised (n : nat) : list (Transaction * Env) :=
  List.map (fun t => (t, calmEnv (tx_timestamp t))) (sampleTransactions n).

(** * The rest of the dashboard *)

(** ** Generator tables and draws *)

Definition currencies : list string :=
  [ "USD"; "EUR"; "GBP"; "JPY"; "CAD"; "AUD"; "CHF"; "CNY"; "BTC"; "ETH" ].

Definition paymentMethods : list string :=
  [ "Wire Transfer"; "Cash Deposit"; "ACH"; "Credit Card"; "Cryptocurrency";
    "Check"; "Money Order" ].

Definition locations : list string :=
  [ "New York, USA"; "London, UK"; "Singapore"; "Dubai, UAE"; "Hong Kong";
    "Switzerland"; "Cayman Islands"; "Bahamas"; "Panama"; "Cyprus" ].




(** ** Transaction list *)







(** ** Alert list and statistics *)



Definition highRiskCount (st : Dashboard) : Z :=
  Z.of_nat (length (List.filter
    (fun t => bool_decide (tx_riskLevel t = High)
              || bool_decide (tx_riskLevel t = Critical))
    (transactions st))).

Definition processedToday (st : Dashboard) : Z := totalProcessed st.


(** ** Charts and pattern list *)

Definition countLevel (st : Dashboard) (l : RiskLevel) : Z :=
  Z.of_nat (length (List.filter (fun t => bool_decide (tx_riskLevel t = l))
                                (transactions st))).

(** The array [riskCounts] of [updateCharts]. *)
Definition riskCounts (st : Dashboard) : list Z :=
  [ countLevel st Low; countLevel st Medium; countLevel st High;
    countLevel st Critical ].

(** [this.patterns.get(type) || 0] in [updatePatternDisplay]. *)
Definition patternCount (st : Dashboard) (type : string) : Z :=
  default 0 (patterns st !! type).

(** The counter [activePatterns] of [updatePatternDisplay]. *)
Definition activePatterns (st : Dashboard) : Z :=
  Z.of_nat (length (List.filter (fun patternInfo => 0 <? patternCount st patternInfo.1)
                                amlPatterns)).

(** The data of the alert-trends chart. *)
Record AlertTrends := {
  tr_labels : list string;
  tr_data : list Z
}.

Definition emptyTrends : AlertTrends := {| tr_labels := []; tr_data := [] |}.

Definition hourLabel (hour : Z) : string := decimal hour +:+ ":00".

(** The second half of [updateCharts].  [getHours] is [Date.prototype.getHours]
    on epoch milliseconds, [now] the reading of [new Date()], [draw k] the
    [k]-th reading of [Math.random()] in the initialising loop.  [shift] on
    an empty array and an assignment at index [-1] leave the elements as
    they are. *)
Definition updateAlertTrends (getHours : Z -> Z) (st : Dashboard) (now : Z)
    (draw : nat -> Q) (tr : AlertTrends) : AlertTrends :=
  let currentHour := getHours now in
  let tr1 :=
    if (length (tr_labels tr) =? 0)%nat then
      {| tr_labels :=
           tr_labels tr
           ++ List.map (fun k : nat =>
                          hourLabel (Z.rem (currentHour - (11 - Z.of_nat k) + 24) 24))
                       (seq 0 12);
         tr_data :=
           tr_data tr
           ++ List.map (fun k : nat => randomIndex (draw k) 10) (seq 0 12) |}
    else tr in
  let tr2 :=
    if (12 <? length (tr_labels tr1))%nat then
      {| tr_labels := drop 1 (tr_labels tr1); tr_data := drop 1 (tr_data tr1) |}
    else tr1 in
  let currentAlerts :=
    Z.of_nat (length (List.filter
      (fun alert => getHours (al_timestamp alert) =? currentHour) (alerts st))) in
  if bool_decide (last (tr_labels tr2) = Some (hourLabel currentHour)) then
    {| tr_labels := tr_labels tr2;
       tr_data := <[(length (tr_data tr2) - 1)%nat := currentAlerts]> (tr_data tr2) |}
  else
    {| tr_labels := tr_labels tr2 ++ [hourLabel currentHour];
       tr_data := tr_data tr2 ++ [currentAlerts] |}.

Definition updateAlertTrendsAll (getHours : Z -> Z)
    (tr : AlertTrends) (calls : list (Dashboard * Z * (nat -> Q))) : AlertTrends :=
  foldl (fun t c => updateAlertTrends getHours c.1.1 c.1.2 c.2 t) tr calls.

(** ** Vocabulary of the further statements *)

(** The dashboard between [initializePatterns] and the first run of the
    generation loop. *)
Definition startDashboard : Dashboard := initializePatterns emptyDashboard.

(** Every transaction processed since construction, oldest first. *)
Definition fullHistory (g : Generated) (env : Env) (es : list Event)
  : list Transaction :=
  assess startDashboard (newTransaction g) env :: history (init g env) es.

(** The delta and the tag that go with a risk-factor text. *)
Definition factorDelta (factor : string) : Z :=
  if String.eqb factor "Large amount transaction" then 30
  else if String.eqb factor "Suspicious round amount" then 15
  else if String.eqb factor "Amount just under reporting threshold" then 40
  else if String.eqb factor "High-risk jurisdiction involved" then 25
  else if String.eqb factor "Large cash transaction" then 20
  else if String.eqb factor "Cryptocurrency transaction" then 15
  else if String.eqb factor "High transaction velocity detected" then 35
  else if String.eqb factor "Complex layering pattern detected" then 50
  else if String.eqb factor "Potential smurfing activity" then 45
  else 0.

Definition factorTag (factor : string) : option string :=
  if String.eqb factor "Suspicious round amount" then Some "Round Amount"
  else if String.eqb factor "Amount just under reporting threshold" then Some "Structuring"
  else if String.eqb factor "High-risk jurisdiction involved" then Some "Geographic Risk"
  else if String.eqb factor "Large cash transaction" then Some "Large Cash"
  else if String.eqb factor "High transaction velocity detected" then Some "Velocity"
  else if String.eqb factor "Complex layering pattern detected" then Some "Layering"
  else if String.eqb factor "Potential smurfing activity" then Some "Smurfing"
  else None.

(** The generated fields an event carries, if it carries any. *)
Definition eventGenerated (e : Event) : option Generated :=
  match e with
  | TimerFires g _ | PauseClick g _ => Some g
  | _ => None
  end.

(** Both locations come from the generator's table. *)
Definition locationsFromTable (g : Generated) : Prop :=
  g_senderLocation g ∈ locations /\ g_receiverLocation g ∈ locations.

(** [st'] is [st] after the transaction drawn as [g], [env] went through
    [generateTransaction] and [addTransaction]. *)
Definition processedInto (st st' : Dashboard) (g : Generated) (env : Env) : Prop :=
  let t := assess st (newTransaction g) env in
  transactions st' = take 100 (t :: transactions st)
  /\ patterns st' = foldl incrementPattern (patterns st) (tx_patterns t)
  /\ totalProcessed st' = totalProcessed st + 1
  /\ alerts st' = if 51 <=? tx_riskScore t
                  then take 50 (newAlert t env :: alerts st)
                  else alerts st.

(** An alert refers to a processed transaction that scored 51 or more. *)
Definition refersToHighRisk (H : list Transaction) (a : Alert) : Prop :=
  exists t, t ∈ H /\ tx_id t = al_transactionId a /\ 51 <= tx_riskScore t.

(** The test of [exportSAR] and [updateStats] on a level. *)
Definition isHighRisk_level (l : RiskLevel) : bool :=
  bool_decide (l = High) || bool_decide (l = Critical).

(** A 9,000 USD cash deposit of account ACC1 from a high-risk jurisdiction,
    and an environment whose draws trigger both placeholder rules. *)
Definition worstGenerated : Generated :=
  sampleGenerated "TXN1700000006000412" 1700000006000 (9000#1)
                  "Cash Deposit" "Tehran, Iran" "ACC1".

Definition stormEnv (now : Z) : Env :=
  {| velocityNow := now; rLayering := 0#1; rSmurfing := 0#1; rJitter := 1#2;
     rAlertType := 0#1; alertIdNow := now; rAlertId := 1#2;
     alertTimestamp := now; rDescription := 0#1 |}.


(** The generated fields of an event, when it has any, come from the
    location table. *)
Definition eventLocationsFromTable (e : Event) : Prop :=
  forall g, eventGenerated e = Some g -> locationsFromTable g.




(** The invariant of the alert-trends chart: as many counts as labels,
    twelve or thirteen of them. *)
Definition trendsShaped (tr : AlertTrends) : Prop :=
  length (tr_labels tr) = length (tr_data tr)
  /\ (12 <= length (tr_labels tr) <= 13)%nat.

(** A run of timer callbacks. *)
Definition timerEvents (inputs : list (Generated * Env)) : list Event :=
  List.map (fun ge => TimerFires ge.1 ge.2) inputs.

(** * Properties *)

(** ** Frame lemmas: which store each operation touches *)

Lemma generateAlert_transactions st t env :
  transactions (generateAlert st t env) = transactions st.
Proof. reflexivity. Qed.

Lemma generateAlert_patterns st t env :
  patterns (generateAlert st t env) = patterns st.
Proof. reflexivity. Qed.

Lemma generateAlert_alerts st t env :
  alerts (generateAlert st t env) = take 50 (newAlert t env :: alerts st).
Proof.
  unfold generateAlert, set_alerts. cbn [alerts].
  destruct (Z.ltb_spec 50 (Z.of_nat (length (newAlert t env :: alerts st)))) as [H|H].
  - reflexivity.
  - symmetry. apply take_ge. lia.
Qed.

Lemma analyzeTransaction_assess st t env :
  (analyzeTransaction st t env).2 = assess st t env.
Proof. reflexivity. Qed.

Lemma analyzeTransaction_transactions st t env :
  transactions (analyzeTransaction st t env).1 = transactions st.
Proof.
  unfold analyzeTransaction. cbn [fst updatePatternCounts set_patterns transactions].
  destruct (51 <=? _); reflexivity.
Qed.

Lemma analyzeTransaction_alerts st t env :
  alerts (analyzeTransaction st t env).1 =
  if 51 <=? tx_riskScore (assess st t env)
  then take 50 (newAlert (assess st t env) env :: alerts st)
  else alerts st.
Proof.
  unfold analyzeTransaction. cbn [fst updatePatternCounts set_patterns alerts].
  destruct (51 <=? _); [apply generateAlert_alerts | reflexivity].
Qed.

Lemma analyzeTransaction_patterns st t env :
  patterns (analyzeTransaction st t env).1 =
  foldl incrementPattern (patterns st) (tx_patterns (assess st t env)).
Proof.
  unfold analyzeTransaction. cbn [fst updatePatternCounts set_patterns patterns].
  destruct (51 <=? _); reflexivity.
Qed.

Lemma addTransaction_transactions st t :
  transactions (addTransaction st t) = take 100 (t :: transactions st).
Proof.
  unfold addTransaction.
  destruct (Z.ltb_spec 100 (Z.of_nat (length (t :: transactions st)))) as [H|H].
  - reflexivity.
  - cbn [set_totalProcessed set_transactions transactions].
    symmetry. apply take_ge. lia.
Qed.

Lemma addTransaction_alerts st t : alerts (addTransaction st t) = alerts st.
Proof. unfold addTransaction. destruct (100 <? _); reflexivity. Qed.

Lemma addTransaction_patterns st t : patterns (addTransaction st t) = patterns st.
Proof. unfold addTransaction. destruct (100 <? _); reflexivity. Qed.

Lemma acknowledgeAlert_transactions st i :
  transactions (acknowledgeAlert st i) = transactions st.
Proof. unfold acknowledgeAlert. destruct (findIndex _ _); reflexivity. Qed.

Lemma acknowledgeAlert_patterns st i :
  patterns (acknowledgeAlert st i) = patterns st.
Proof. unfold acknowledgeAlert. destruct (findIndex _ _); reflexivity. Qed.

Lemma acknowledgeAlert_length st i :
  length (alerts (acknowledgeAlert st i)) = length (alerts st).
Proof.
  unfold acknowledgeAlert. destruct (findIndex _ _); [|reflexivity].
  cbn [set_alerts alerts]. apply length_alter.
Qed.

Lemma generateInterval_unfold st g env :
  generateInterval st g env =
  if isRunning st
  then addTransaction (analyzeTransaction st (newTransaction g) env).1
                      (assess st (newTransaction g) env)
  else st.
Proof. unfold generateInterval. destruct (isRunning st); reflexivity. Qed.

(** ** Score range and level buckets *)

Lemma finalScore_range sum env : 1 <= finalScore sum env <= 100.
Proof. unfold finalScore. lia. Qed.


(** The accumulated [riskScore] is the sum of the deltas of the rules whose
    condition held. *)
Lemma rule_riskScore c d f tag a :
  sc_riskScore (rule c d f tag a) = sc_riskScore a + delta c d.
Proof. destruct c; cbn; lia. Qed.

Lemma applyRules_riskScore st t env :
  sc_riskScore (applyRules st t env) =
    delta (Qltb (100000#1) (tx_amount t)) 30
  + delta (Qeq_bool (jsRem (tx_amount t) (1000#1)) (0#1) && Qltb (5000#1) (tx_amount t)) 15
  + delta (Qle_bool (9000#1) (tx_amount t) && Qltb (tx_amount t) (10000#1)) 40
  + delta (geographicRisk t) 25
  + delta (String.eqb (tx_paymentMethod t) "Cash Deposit" && Qltb (5000#1) (tx_amount t)) 20
  + delta (String.eqb (tx_paymentMethod t) "Cryptocurrency") 15
  + delta (checkVelocity st t (velocityNow env)) 35
  + delta (Qltb (rLayering env) layeringRate) 50
  + delta (Qltb (rSmurfing env) smurfingRate) 45.
Proof. unfold applyRules. rewrite !rule_riskScore. cbn [sc_riskScore]. lia. Qed.

Lemma assess_assessed st t env : assessed (assess st t env).
Proof. split; [apply finalScore_range | reflexivity]. Qed.

Lemma generateInterval_ledger_assessed st g env :
  Forall assessed (transactions st) ->
  Forall assessed (transactions (generateInterval st g env)).
Proof.
  intros H. rewrite generateInterval_unfold. destruct (isRunning st); [|exact H].
  rewrite addTransaction_transactions, analyzeTransaction_transactions.
  apply Forall_take. constructor; [apply assess_assessed | exact H].
Qed.

Lemma step_ledger_assessed st e :
  Forall assessed (transactions st) -> Forall assessed (transactions (step st e)).
Proof.
  intros H. destruct e as [g env|g env|i|i|now]; cbn [step].
  - apply generateInterval_ledger_assessed, H.
  - unfold togglePause, startTransactionGeneration.
    destruct (isRunning (set_isRunning st _));
      [apply generateInterval_ledger_assessed|]; exact H.
  - rewrite acknowledgeAlert_transactions. exact H.
  - unfold investigateTransaction. rewrite acknowledgeAlert_transactions. exact H.
  - exact H.
Qed.

Lemma run_ledger_assessed es : forall st,
  Forall assessed (transactions st) -> Forall assessed (transactions (run st es)).
Proof.
  induction es as [|e es IH]; intros st H; [exact H|].
  cbn [run foldl]. apply IH, step_ledger_assessed, H.
Qed.

Lemma init_ledger_assessed g env : Forall assessed (transactions (init g env)).
Proof.
  unfold init, startTransactionGeneration.
  apply generateInterval_ledger_assessed. constructor.
Qed.



(** ** Transactions on which no rule fires *)

(** Each rule that fires pushes a risk factor, so an empty factor list
    means that nothing was added to the score and no tag was pushed. *)
Lemma rule_quiet c d f tag a0 a :
  (sc_riskFactors a = [] -> sc_riskScore a = 0 /\ sc_patterns a = a0) ->
  sc_riskFactors (rule c d f tag a) = [] ->
  sc_riskScore (rule c d f tag a) = 0 /\ sc_patterns (rule c d f tag a) = a0.
Proof.
  destruct c; cbn [rule fire sc_riskFactors].
  - intros _ H. destruct (sc_riskFactors a); discriminate H.
  - auto.
Qed.

Lemma applyRules_quiet st t env :
  sc_riskFactors (applyRules st t env) = [] ->
  sc_riskScore (applyRules st t env) = 0
  /\ sc_patterns (applyRules st t env) = tx_patterns t.
Proof.
  unfold applyRules. cbv zeta.
  repeat (apply rule_quiet). cbn. auto.
Qed.

Lemma Qfloor_jitter_only env :
  (-(5#1) <= jitter env)%Q -> (jitter env < 5#1)%Q ->
  -5 <= Qfloor (inject_Z 0 + jitter env) <= 4.
Proof.
  intros Hlo Hhi.
  assert (E : (inject_Z 0 + jitter env == jitter env)%Q) by ring.
  rewrite E. split.
  - change (-5) with (Qfloor (inject_Z (-5))) at 1.
    apply Qfloor_resp_le. exact Hlo.
  - pose proof (Qfloor_le (jitter env)) as Hfl.
    assert (Hlt : (inject_Z (Qfloor (jitter env)) < inject_Z 5)%Q)
      by (eapply Qle_lt_trans; [exact Hfl | exact Hhi]).
    rewrite <- Zlt_Qlt in Hlt. lia.
Qed.

(** C10.  When no detection rule fires on a transaction (its risk-factor
    list comes out empty, and then no pattern was pushed either), the final
    score lies in [1,4] for every jitter in [-5,5), the level is Low and the
    alert store is left as it was. *)
Theorem C10_no_rule_fired_scores_low st transaction env :
  tx_riskFactors (analyzeTransaction st transaction env).2 = [] ->
  (-(5#1) <= jitter env)%Q ->
  (jitter env < 5#1)%Q ->
  let t := (analyzeTransaction st transaction env).2 in
  1 <= tx_riskScore t <= 4
  /\ tx_riskLevel t = Low
  /\ tx_patterns t = tx_patterns transaction
  /\ alerts (analyzeTransaction st transaction env).1 = alerts st.
Proof.
  intros Hq Hlo Hhi t. subst t.
  rewrite analyzeTransaction_alerts, analyzeTransaction_assess in *.
  cbn [assess tx_riskFactors tx_riskScore tx_riskLevel tx_patterns] in *.
  destruct (applyRules_quiet st transaction env Hq) as [Hs Hp].
  rewrite Hs, Hp.
  pose proof (Qfloor_jitter_only env Hlo Hhi) as Hf.
  assert (Hr : 1 <= finalScore 0 env <= 4) by (unfold finalScore; lia).
  split; [exact Hr|]. split; [|split; [reflexivity|]].
  - unfold riskLevelOf.
    destruct (Z.leb_spec 76 (finalScore 0 env)); [lia|].
    destruct (Z.leb_spec 51 (finalScore 0 env)); [lia|].
    destruct (Z.leb_spec 26 (finalScore 0 env)); [lia|reflexivity].
  - destruct (Z.leb_spec 51 (finalScore 0 env)); [lia|reflexivity].
Qed.

(** C10 at a concrete input: a 250 USD transfer against an empty ledger. *)
Lemma C10_no_rule_fired_scores_low_witness :
  let st := initializePatterns emptyDashboard in
  let transaction :=
    newTransaction (sampleGenerated "TXN17000000000001" 1700000000000 (250#1)
                                    "ACH" "London, UK" "ACC1") in
  let t := (analyzeTransaction st transaction (calmEnv 1700000000000)).2 in
  1 <= tx_riskScore t <= 4
  /\ tx_riskLevel t = Low
  /\ tx_patterns t = tx_patterns transaction
  /\ alerts (analyzeTransaction st transaction (calmEnv 1700000000000)).1 = alerts st.
Proof.
  apply (C10_no_rule_fired_scores_low
           (initializePatterns emptyDashboard)
           (newTransaction (sampleGenerated "TXN17000000000001" 1700000000000 (250#1)
                                            "ACH" "London, UK" "ACC1"))
           (calmEnv 1700000000000)).
  - vm_compute. reflexivity.
  - vm_compute. discriminate.
  - vm_compute. reflexivity.
Defined.

(** ** The velocity count *)

Lemma isRecent_inWindow transaction now t :
  isRecent transaction now t = true <->
  inWindow (p_account (tx_sender transaction)) now t.
Proof.
  unfold isRecent, inWindow.
  rewrite andb_true_iff, String.eqb_eq, Z.ltb_lt. intuition lia.
Qed.

Lemma bool_filter_decide {A} (f : A -> bool) (P : A -> Prop)
    `{forall x, Decision (P x)} (l : list A) :
  (forall x, f x = true <-> P x) -> List.filter f l = filter P l.
Proof.
  intros Hf. induction l as [|x l IH]; [reflexivity|].
  cbn [List.filter]. rewrite filter_cons, IH.
  destruct (f x) eqn:E; destruct (decide (P x)) as [HP|HP]; try reflexivity.
  - exfalso. apply HP, Hf, E.
  - apply Hf in HP. congruence.
Qed.

(** C3, as the code has it.  The velocity count is the number of ledger
    entries of the sender's account whose timestamp [t] satisfies
    [now - 3600000 < t] (the window is fixed at one hour and open at its
    old end, and nothing bounds [t] from above): an entry is counted
    exactly when it is such an entry, and a timestamp exactly at
    [now - 3600000] is not counted. *)
Theorem C3_velocity_count_is_strict_window st transaction now :
  recentTransactions st transaction now =
    filter (inWindow (p_account (tx_sender transaction)) now) (transactions st)
  /\ (forall t, t ∈ recentTransactions st transaction now <->
                t ∈ transactions st
                /\ p_account (tx_sender t) = p_account (tx_sender transaction)
                /\ now - 3600000 < tx_timestamp t)
  /\ (forall t, tx_timestamp t = now - 3600000 ->
                t ∉ recentTransactions st transaction now)
  /\ checkVelocity st transaction now =
     bool_decide (5 < length (filter (inWindow (p_account (tx_sender transaction)) now)
                                     (transactions st)))%nat.
Proof.
  assert (E : recentTransactions st transaction now =
              filter (inWindow (p_account (tx_sender transaction)) now)
                     (transactions st)).
  { unfold recentTransactions. apply bool_filter_decide.
    intros x. apply isRecent_inWindow. }
  split; [exact E|]. split; [|split].
  - intros t. rewrite E, list_elem_of_filter. unfold inWindow. tauto.
  - intros t Ht Hin. rewrite E, list_elem_of_filter in Hin.
    destruct Hin as [[_ Hw] _]. lia.
  - unfold checkVelocity. rewrite E.
    destruct (Z.ltb_spec 5 (Z.of_nat (length (filter
               (inWindow (p_account (tx_sender transaction)) now) (transactions st)))));
      symmetry; [apply bool_decide_eq_true | apply bool_decide_eq_false]; lia.
Qed.

(** C3 at a concrete input: a ledger entry stamped exactly one hour before
    the query. *)
Lemma C3_velocity_count_is_strict_window_witness :
  let boundary :=
    newTransaction (sampleGenerated "TXN17000000000001" 1700000000000 (250#1)
                                    "ACH" "London, UK" "ACC1") in
  let st := withLedger [boundary] in
  tx_timestamp boundary = 1700003600000 - 3600000
  /\ (boundary ∉ recentTransactions st boundary 1700003600000).
Proof.
  cbv zeta.
  assert (Hts : tx_timestamp
                  (newTransaction (sampleGenerated "TXN17000000000001" 1700000000000
                                                   (250#1) "ACH" "London, UK" "ACC1"))
                = 1700003600000 - 3600000) by reflexivity.
  split; [exact Hts|].
  exact (proj1 (proj2 (proj2 (C3_velocity_count_is_strict_window _ _ _))) _ Hts).
Defined.

(** With a clock that does not run backwards every ledger timestamp is at
    most [now], and the count is that of the half-open window
    [now - 3600000 < t <= now]. *)
Lemma velocity_count_past_timestamps st transaction now :
  Forall (fun t => tx_timestamp t <= now) (transactions st) ->
  length (recentTransactions st transaction now)
  = length (filter (fun t => p_account (tx_sender t) = p_account (tx_sender transaction)
                             /\ now - 3600000 < tx_timestamp t <= now)
                   (transactions st)).
Proof.
  intros Hpast. unfold recentTransactions.
  induction Hpast as [|t l Ht _ IH]; [reflexivity|].
  cbn [List.filter]. rewrite filter_cons.
  destruct (isRecent transaction now t) eqn:E.
  - apply isRecent_inWindow in E as [E1 E2].
    rewrite decide_True by (split; [exact E1 | lia]).
    cbn [length]. rewrite IH. reflexivity.
  - rewrite decide_False; [exact IH|].
    intros [E1 [E2 _]].
    assert (Hw : isRecent transaction now t = true)
      by (apply isRecent_inWindow; split; [exact E1 | exact E2]).
    congruence.
Qed.

(** C3 as stated fails: an entry stamped exactly one hour before [now] lies
    in [now - W, now] but is not counted. *)
Lemma C3_boundary_timestamp_not_counted :
  let boundary :=
    newTransaction (sampleGenerated "TXN17000000000001" 1700000000000 (250#1)
                                    "ACH" "London, UK" "ACC1") in
  let probe :=
    newTransaction (sampleGenerated "TXN17000036000002" 1700003600000 (250#1)
                                    "ACH" "London, UK" "ACC1") in
  let st := withLedger [boundary] in
  tx_timestamp boundary = 1700003600000 - 3600000
  /\ Z.of_nat (length (recentTransactions st probe 1700003600000)) = 0
  /\ countWithin_spec (transactions st) "ACC1" 1700003600000 3600000 = 1.
Proof. vm_compute. repeat split. Qed.

(** ** Velocity over a run of submissions *)

Lemma rule_patterns c d f tag a :
  sc_patterns (rule c d f (Some tag) a) = sc_patterns a ++ tagIf c tag.
Proof. destruct c; cbn; [reflexivity | symmetry; apply app_nil_r]. Qed.

Lemma rule_patterns_untagged c d f a :
  sc_patterns (rule c d f None a) = sc_patterns a.
Proof. destruct c; reflexivity. Qed.

(** The tags pushed by [analyzeTransaction], in rule order. *)
Lemma applyRules_patterns st t env :
  sc_patterns (applyRules st t env) =
  tx_patterns t
  ++ tagIf (Qeq_bool (jsRem (tx_amount t) (1000#1)) (0#1) && Qltb (5000#1) (tx_amount t))
           "Round Amount"
  ++ tagIf (Qle_bool (9000#1) (tx_amount t) && Qltb (tx_amount t) (10000#1)) "Structuring"
  ++ tagIf (geographicRisk t) "Geographic Risk"
  ++ tagIf (String.eqb (tx_paymentMethod t) "Cash Deposit" && Qltb (5000#1) (tx_amount t))
           "Large Cash"
  ++ tagIf (checkVelocity st t (velocityNow env)) "Velocity"
  ++ tagIf (Qltb (rLayering env) layeringRate) "Layering"
  ++ tagIf (Qltb (rSmurfing env) smurfingRate) "Smurfing".
Proof.
  unfold applyRules. cbv zeta.
  repeat (rewrite rule_patterns || rewrite rule_patterns_untagged).
  cbn [sc_patterns].
  rewrite <- !app_assoc. reflexivity.
Qed.

Lemma elem_of_tagIf p c tag : p ∈ tagIf c tag <-> c = true /\ p = tag.
Proof.
  destruct c; cbn.
  - rewrite list_elem_of_singleton. intuition.
  - rewrite elem_of_nil. intuition discriminate.
Qed.


Lemma generateInterval_isRunning st g env :
  isRunning (generateInterval st g env) = isRunning st.
Proof.
  rewrite generateInterval_unfold. destruct (isRunning st) eqn:E; [|exact E].
  unfold addTransaction. destruct (100 <? _); cbn; rewrite ?E;
    unfold analyzeTransaction; cbn; destruct (51 <=? _); cbn; exact E.
Qed.










(** ** Order of the store updates *)

(** C4, as the code has it.  One run of the generation loop updates the
    stores in the order: scoring, conditional alert creation,
    pattern-counter increments, ledger insertion.  When the alert is
    created, and still when the counters are incremented, the ledger is as
    it was before the run; the assessed transaction is at the head of the
    ledger once the run is complete. *)
Theorem C4_alert_then_counters_then_ledger st g env :
  let t := assess st (newTransaction g) env in
  let afterAlert :=
    if 51 <=? tx_riskScore t then generateAlert st t env else st in
  let afterCounters := updatePatternCounts afterAlert (tx_patterns t) in
  let afterLedger := addTransaction afterCounters t in
  generateTransaction st g env = (afterCounters, t)
  /\ generateInterval st g env = (if isRunning st then afterLedger else st)
  /\ (transactions afterAlert = transactions st
      /\ patterns afterAlert = patterns st
      /\ alerts afterAlert =
         if 51 <=? tx_riskScore t
         then take 50 (newAlert t env :: alerts st) else alerts st)
  /\ (transactions afterCounters = transactions st
      /\ alerts afterCounters = alerts afterAlert
      /\ patterns afterCounters =
         foldl incrementPattern (patterns st) (tx_patterns t))
  /\ (transactions afterLedger = take 100 (t :: transactions st)
      /\ alerts afterLedger = alerts afterAlert
      /\ patterns afterLedger = patterns afterCounters
      /\ head (transactions afterLedger) = Some t).
Proof.
  intros t afterAlert afterCounters afterLedger.
  assert (Ha : transactions afterAlert = transactions st
               /\ patterns afterAlert = patterns st
               /\ alerts afterAlert =
                  if 51 <=? tx_riskScore t
                  then take 50 (newAlert t env :: alerts st) else alerts st).
  { subst afterAlert. destruct (51 <=? tx_riskScore t).
    - split; [reflexivity|]. split; [reflexivity|]. apply generateAlert_alerts.
    - repeat split. }
  destruct Ha as (Ha1 & Ha2 & Ha3).
  split; [reflexivity|]. split; [apply generateInterval_unfold|].
  split; [auto|]. split.
  - subst afterCounters. cbn [updatePatternCounts set_patterns transactions alerts patterns].
    rewrite Ha2. auto.
  - subst afterLedger.
    rewrite addTransaction_transactions, addTransaction_alerts, addTransaction_patterns.
    subst afterCounters. cbn [updatePatternCounts set_patterns transactions alerts patterns].
    rewrite Ha1. repeat split.
Qed.

(** C4 as stated fails: when the alert for a transaction is created, and
    still when [analyzeTransaction] returns, no ledger entry carries the
    identifier the alert refers to. *)
Lemma C4_alert_created_before_ledger_insertion :
  let g := riskyGenerated "TXN1700000000000412" 1700000000000 in
  let env := calmEnv 1700000000000 in
  let st := initializePatterns emptyDashboard in
  let t := assess st (newTransaction g) env in
  let atAlertCreation := generateAlert st t env in
  tx_riskScore t = 85
  /\ alerts (generateTransaction st g env).1 = alerts atAlertCreation
  /\ (exists a, a ∈ alerts atAlertCreation /\ al_transactionId a = tx_id t)
  /\ (forall t', t' ∈ transactions atAlertCreation -> tx_id t' <> tx_id t)
  /\ (forall t', t' ∈ transactions (generateTransaction st g env).1 ->
               tx_id t' <> tx_id t).
Proof.
  cbv zeta. split; [reflexivity|]. split; [reflexivity|]. split.
  - eexists. split; [apply list_elem_of_here | reflexivity].
  - split; intros t' Hin; cbn in Hin; inversion Hin.
Qed.

(** ** Acknowledging alerts *)

Lemma findIndex_split {A} (f : A -> bool) (l : list A) :
  match findIndex f l with
  | Some k => exists l1 a l2,
      l = l1 ++ a :: l2 /\ length l1 = k /\ f a = true
      /\ Forall (fun x => f x = false) l1
  | None => Forall (fun x => f x = false) l
  end.
Proof.
  induction l as [|x l IH]; cbn [findIndex]; [constructor|].
  destruct (f x) eqn:E.
  - exists [], x, l.
    split; [reflexivity|]. split; [reflexivity|]. split; [exact E | constructor].
  - destruct (findIndex f l) as [k|]; cbn [fmap option_fmap option_map].
    + destruct IH as (l1 & a & l2 & -> & <- & Ha & Hl1).
      exists (x :: l1), a, l2.
      split; [reflexivity|]. split; [reflexivity|]. split; [exact Ha|].
      constructor; [exact E | exact Hl1].
    + constructor; [exact E | exact IH].
Qed.


Lemma alter_middle {A} (f : A -> A) (l1 : list A) a l2 :
  alter f (length l1) (l1 ++ a :: l2) = l1 ++ f a :: l2.
Proof.
  replace (length l1) with (length l1 + 0)%nat by lia.
  rewrite alter_app_r. reflexivity.
Qed.

Lemma set_alerts_same st : set_alerts st (alerts st) = st.
Proof. destruct st; reflexivity. Qed.

Lemma setAcknowledged_acknowledged a :
  al_acknowledged a = true -> setAcknowledged a = a.
Proof. destruct a; cbn; intros ->; reflexivity. Qed.



Lemma matchesId_true i a : matchesId i a = true <-> i = Some (al_transactionId a).
Proof.
  destruct i as [i|]; cbn [matchesId].
  - rewrite String.eqb_eq. split; [intros ->; reflexivity | intros [= ->]; reflexivity].
  - split; discriminate.
Qed.



(** When no two alerts refer to the same transaction, the alert the code
    picks is the one the specification names, unless it is acknowledged
    already, in which case both leave the state alone. *)
Lemma acknowledge_spec_agrees st transactionId :
  NoDup (al_transactionId <$> alerts st) ->
  acknowledgeAlert st transactionId = acknowledge_spec st transactionId.
Proof.
  intros Hnd.
  pose proof (findIndex_split (matchesId transactionId) (alerts st)) as Hs.
  pose proof (findIndex_split (matchesUnacknowledged transactionId) (alerts st)) as Hu.
  unfold acknowledgeAlert, acknowledge_spec.
  destruct (findIndex (matchesId transactionId) (alerts st)) as [k|];
    destruct (findIndex (matchesUnacknowledged transactionId) (alerts st)) as [j|].
  - destruct Hs as (l1 & a & l2 & E & Hk & Ha & _).
    destruct Hu as (m1 & b & m2 & Em & Hj & Hb & _).
    apply andb_true_iff in Hb as [Hb _].
    apply matchesId_true in Ha, Hb.
    assert (Hka : (al_transactionId <$> alerts st) !! k = Some (al_transactionId a)).
    { rewrite list_lookup_fmap, E, <- Hk, list_lookup_middle by reflexivity.
      reflexivity. }
    assert (Hjb : (al_transactionId <$> alerts st) !! j = Some (al_transactionId a)).
    { rewrite list_lookup_fmap, Em, <- Hj, list_lookup_middle by reflexivity.
      cbn. congruence. }
    rewrite (NoDup_lookup _ _ _ _ Hnd Hka Hjb). reflexivity.
  - destruct Hs as (l1 & a & l2 & E & <- & Ha & _).
    rewrite Forall_forall in Hu.
    assert (Hack : al_acknowledged a = true).
    { specialize (Hu a). unfold matchesUnacknowledged in Hu.
      rewrite Ha in Hu. destruct (al_acknowledged a); [reflexivity|].
      symmetry. apply Hu. rewrite E. set_solver. }
    rewrite E at 1. rewrite alter_middle, (setAcknowledged_acknowledged a Hack), <- E.
    apply set_alerts_same.
  - exfalso. destruct Hu as (m1 & b & m2 & Em & _ & Hb & _).
    apply andb_true_iff in Hb as [Hb _].
    rewrite Forall_forall in Hs. rewrite Hs in Hb; [discriminate|].
    rewrite Em. set_solver.
  - reflexivity.
Qed.


(** ** Pattern counters *)

Lemma incrementPattern_lookup (m : gmap string Z) q p :
  default 0 (incrementPattern m q !! p)
  = default 0 (m !! p) + (if decide (q = p) then 1 else 0).
Proof.
  unfold incrementPattern. rewrite lookup_insert.
  destruct (decide (q = p)) as [->|Hne]; cbn [from_option id]; lia.
Qed.

Lemma foldl_incrementPattern_lookup tags : forall (m : gmap string Z) p,
  default 0 (foldl incrementPattern m tags !! p)
  = default 0 (m !! p) + Z.of_nat (length (filter (fun q => q = p) tags)).
Proof.
  induction tags as [|q tags IH]; intros m p; cbn [foldl].
  - rewrite filter_nil. cbn [length]. lia.
  - rewrite IH, incrementPattern_lookup, filter_cons.
    destruct (decide (q = p)); cbn [length]; lia.
Qed.

Lemma foldl_incrementPattern_dom tags : forall (m : gmap string Z),
  dom (foldl incrementPattern m tags) = dom m ∪ list_to_set tags.
Proof.
  induction tags as [|q tags IH]; intros m; cbn [foldl list_to_set].
  - symmetry. apply (right_id_L ∅ (∪)).
  - rewrite IH. unfold incrementPattern. rewrite dom_insert_L.
    rewrite (comm_L (∪) {[q]} (dom m)), (assoc_L (∪)). reflexivity.
Qed.

Lemma initializePatterns_dom :
  dom (patterns (initializePatterns emptyDashboard)) = list_to_set catalogTags.
Proof. vm_compute. reflexivity. Qed.

(** The tags a freshly generated transaction ends up with are catalog
    tags. *)
Lemma assess_new_patterns_in_catalog st g env p :
  p ∈ tx_patterns (assess st (newTransaction g) env) -> p ∈ catalogTags.
Proof.
  cbn [assess tx_patterns]. rewrite applyRules_patterns.
  cbn [newTransaction tx_patterns app].
  rewrite !elem_of_app, !elem_of_tagIf.
  unfold catalogTags, amlPatterns. cbn [fmap list_fmap fst].
  rewrite !elem_of_cons. intuition congruence.
Qed.

Lemma generateInterval_patterns_dom st g env :
  dom (patterns st) = list_to_set catalogTags ->
  dom (patterns (generateInterval st g env)) = list_to_set catalogTags.
Proof.
  intros Hd. rewrite generateInterval_unfold. destruct (isRunning st); [|exact Hd].
  rewrite addTransaction_patterns, analyzeTransaction_patterns,
    foldl_incrementPattern_dom, Hd.
  apply set_eq. intros p. rewrite elem_of_union, !elem_of_list_to_set.
  split; [|auto]. intros [H|H]; [exact H|].
  eapply assess_new_patterns_in_catalog, H.
Qed.

Lemma step_patterns_dom st e :
  dom (patterns st) = list_to_set catalogTags ->
  dom (patterns (step st e)) = list_to_set catalogTags.
Proof.
  intros Hd. destruct e as [g env|g env|i|i|now]; cbn [step].
  - apply generateInterval_patterns_dom, Hd.
  - unfold togglePause, startTransactionGeneration.
    destruct (isRunning (set_isRunning st _));
      [apply generateInterval_patterns_dom|]; exact Hd.
  - rewrite acknowledgeAlert_patterns. exact Hd.
  - unfold investigateTransaction. rewrite acknowledgeAlert_patterns. exact Hd.
  - exact Hd.
Qed.

Lemma run_patterns_dom es : forall st,
  dom (patterns st) = list_to_set catalogTags ->
  dom (patterns (run st es)) = list_to_set catalogTags.
Proof.
  induction es as [|e es IH]; intros st Hd; [exact Hd|].
  cbn [run foldl]. apply IH, step_patterns_dom, Hd.
Qed.

(** C6, as the code has it.  The increment adds one to the counter of each
    named tag, whether the tag is in the catalog or not: a counter that is
    absent counts as 0 and is created.  Nothing is validated and nothing
    fails.  The tags that the scoring of a generated transaction pushes are
    catalog tags, so the counters of a running dashboard are always exactly
    those of the catalog. *)
Theorem C6_increment_counts_every_named_tag :
  (forall (m : gmap string Z) tags p,
     default 0 (foldl incrementPattern m tags !! p)
     = default 0 (m !! p) + Z.of_nat (length (filter (fun q => q = p) tags)))
  /\ (forall (m : gmap string Z) tags,
        dom (foldl incrementPattern m tags) = dom m ∪ list_to_set tags)
  /\ (forall st transaction env,
        patterns (analyzeTransaction st transaction env).1
        = foldl incrementPattern (patterns st)
                (tx_patterns (analyzeTransaction st transaction env).2))
  /\ (forall st g env p,
        p ∈ tx_patterns (generateTransaction st g env).2 -> p ∈ catalogTags)
  /\ (forall g env es,
        dom (patterns (run (init g env) es)) = list_to_set catalogTags).
Proof.
  split; [intros; apply foldl_incrementPattern_lookup|].
  split; [intros; apply foldl_incrementPattern_dom|].
  split; [intros; apply analyzeTransaction_patterns|].
  split.
  - intros st g env p. unfold generateTransaction.
    rewrite analyzeTransaction_assess. apply assess_new_patterns_in_catalog.
  - intros g env es. apply run_patterns_dom.
    unfold init, startTransactionGeneration.
    apply generateInterval_patterns_dom, initializePatterns_dom.
Qed.

(** C6 at a concrete input: a tag pushed for a risky cash deposit. *)
Lemma C6_increment_counts_every_named_tag_witness :
  let g := riskyGenerated "TXN1700000000000412" 1700000000000 in
  let env := calmEnv 1700000000000 in
  let st := initializePatterns emptyDashboard in
  "Structuring" ∈ tx_patterns (generateTransaction st g env).2
  /\ "Structuring" ∈ catalogTags.
Proof.
  cbv zeta.
  assert (Hin : "Structuring"
                ∈ tx_patterns
                    (generateTransaction (initializePatterns emptyDashboard)
                       (riskyGenerated "TXN1700000000000412" 1700000000000)
                       (calmEnv 1700000000000)).2).
  { vm_compute. apply list_elem_of_here. }
  split; [exact Hin|].
  exact (proj1 (proj2 (proj2 (proj2 C6_increment_counts_every_named_tag))) _ _ _ _ Hin).
Defined.

(** C6 as stated fails: a tag outside the catalog is not rejected; a counter
    is created for it and set to 1. *)
Lemma C6_unknown_tag_gets_a_counter :
  let st := initializePatterns emptyDashboard in
  let env := calmEnv 1700000000000 in
  ("Bogus" ∉ catalogTags)
  /\ patterns st !! "Bogus" = None
  /\ patterns (updatePatternCounts st ["Bogus"]) !! "Bogus" = Some 1
  /\ tx_patterns (analyzeTransaction st (taggedTransaction "Bogus") env).2 = ["Bogus"]
  /\ patterns (analyzeTransaction st (taggedTransaction "Bogus") env).1 !! "Bogus"
     = Some 1.
Proof.
  cbv zeta. split.
  { apply (bool_decide_unpack _). vm_compute. exact I. }
  repeat split; vm_compute; reflexivity.
Qed.

(** ** Bounded stores *)

Lemma take_app_take {A} n (l1 l2 : list A) :
  take n (l1 ++ take n l2) = take n (l1 ++ l2).
Proof.
  rewrite !take_app, take_take. f_equal. f_equal. lia.
Qed.

Lemma take_reverse_snoc {A} n (x : A) l :
  length l = n -> take n (reverse (x :: l)) = reverse l.
Proof.
  intros Hl. rewrite reverse_cons, take_app_le by (rewrite length_reverse; lia).
  apply take_ge. rewrite length_reverse. lia.
Qed.

Lemma foldl_addTransaction ts : forall st,
  (length (transactions st) <= 100)%nat ->
  transactions (foldl addTransaction st ts) = take 100 (reverse ts ++ transactions st).
Proof.
  induction ts as [|t ts IH]; intros st Hst; cbn [foldl].
  - symmetry. apply take_ge. exact Hst.
  - rewrite IH by (rewrite addTransaction_transactions, length_take; lia).
    rewrite addTransaction_transactions, take_app_take, reverse_cons, <- app_assoc.
    reflexivity.
Qed.

Lemma step_transactions st e :
  (length (transactions st) <= 100)%nat ->
  transactions (step st e) = take 100 (reverse (processed st e) ++ transactions st).
Proof.
  intros Hst.
  assert (Hid : transactions st = take 100 (transactions st))
    by (symmetry; apply take_ge, Hst).
  destruct e as [g env|g env|i|i|now]; cbn [step processed].
  - rewrite generateInterval_unfold. destruct (isRunning st); [|exact Hid].
    rewrite addTransaction_transactions, analyzeTransaction_transactions.
    reflexivity.
  - unfold togglePause, startTransactionGeneration.
    destruct (isRunning st) eqn:Hrun; cbn [negb set_isRunning isRunning].
    + exact Hid.
    + rewrite generateInterval_unfold. cbn [set_isRunning isRunning].
      rewrite addTransaction_transactions, analyzeTransaction_transactions.
      reflexivity.
  - rewrite acknowledgeAlert_transactions. exact Hid.
  - unfold investigateTransaction. rewrite acknowledgeAlert_transactions. exact Hid.
  - exact Hid.
Qed.

Lemma run_transactions es : forall st,
  (length (transactions st) <= 100)%nat ->
  transactions (run st es) = take 100 (reverse (history st es) ++ transactions st).
Proof.
  induction es as [|e es IH]; intros st Hst; cbn [run foldl history].
  - symmetry. apply take_ge, Hst.
  - fold (run (step st e) es).
    rewrite IH by (rewrite step_transactions, length_take by exact Hst; lia).
    rewrite step_transactions by exact Hst.
    rewrite take_app_take, reverse_app, <- app_assoc. reflexivity.
Qed.

Lemma init_transactions g env :
  transactions (init g env)
  = [assess (initializePatterns emptyDashboard) (newTransaction g) env].
Proof.
  unfold init, startTransactionGeneration.
  rewrite generateInterval_unfold. cbn [initializePatterns set_patterns isRunning emptyDashboard].
  rewrite addTransaction_transactions, analyzeTransaction_transactions.
  reflexivity.
Qed.

(** C7.  Every insertion into the ledger puts the new entry at the front
    and keeps the first 100: below the cap nothing is lost, at the cap the
    last (oldest) entry goes.  Inserting a list of transactions into the
    empty ledger leaves the 100 latest, latest first; after 101 insertions
    these are the last 100 inserted, the first one being gone.  In every
    state a constructed dashboard can reach, the ledger has at most 100
    entries and holds the most recently processed transactions, most recent
    first. *)
Theorem C7_ledger_is_most_recent_first_capped_at_100 :
  (forall st t, transactions (addTransaction st t) = take 100 (t :: transactions st))
  /\ (forall st t, (length (transactions st) < 100)%nat ->
        transactions (addTransaction st t) = t :: transactions st)
  /\ (forall st t,
        transactions (addTransaction st t) = t :: take 99 (transactions st))
  /\ (forall ts,
        transactions (foldl addTransaction emptyDashboard ts) = take 100 (reverse ts)
        /\ length (transactions (foldl addTransaction emptyDashboard ts))
           = (100 `min` length ts)%nat)
  /\ (forall t0 ts, length ts = 100%nat ->
        transactions (foldl addTransaction emptyDashboard (t0 :: ts)) = reverse ts)
  /\ (forall g env es,
        (length (transactions (run (init g env) es)) <= 100)%nat
        /\ transactions (run (init g env) es)
           = take 100 (reverse (history (init g env) es)
                       ++ [assess (initializePatterns emptyDashboard)
                                  (newTransaction g) env])).
Proof.
  assert (Hfold : forall ts,
            transactions (foldl addTransaction emptyDashboard ts)
            = take 100 (reverse ts)).
  { intros ts. rewrite foldl_addTransaction by (cbn; lia).
    cbn [emptyDashboard transactions]. rewrite app_nil_r. reflexivity. }
  split; [apply addTransaction_transactions|].
  split; [|split; [|split; [|split]]].
  - intros st t Hlt. rewrite addTransaction_transactions.
    apply take_ge. cbn [length]. lia.
  - intros st t. rewrite addTransaction_transactions. reflexivity.
  - intros ts. rewrite Hfold, length_take, length_reverse. auto.
  - intros t0 ts Hlen. rewrite Hfold. apply take_reverse_snoc, Hlen.
  - intros g env es.
    assert (H1 : (length (transactions (init g env)) <= 100)%nat)
      by (rewrite init_transactions; cbn; lia).
    rewrite (run_transactions es _ H1), init_transactions.
    split; [rewrite length_take; lia | reflexivity].
Qed.

(** C7 at a concrete input: 101 insertions into the empty ledger. *)
Lemma C7_ledger_is_most_recent_first_capped_at_100_witness :
  let t0 := taggedTransaction "Structuring" in
  let ts := sampleTransactions 100 in
  length ts = 100%nat
  /\ transactions (foldl addTransaction emptyDashboard (t0 :: ts)) = reverse ts.
Proof.
  cbv zeta.
  assert (Hlen : length (sampleTransactions 100) = 100%nat) by (vm_compute; reflexivity).
  split; [exact Hlen|].
  exact (proj1 (proj2 (proj2 (proj2 (proj2
           C7_ledger_is_most_recent_first_capped_at_100)))) _ _ Hlen).
Defined.

Lemma foldl_raise raised : forall st,
  (length (alerts st) <= 50)%nat ->
  alerts (foldl raise st raised)
  = take 50 (reverse ((fun te => newAlert te.1 te.2) <$> raised) ++ alerts st).
Proof.
  induction raised as [|[t env] raised IH]; intros st Hst; cbn [foldl fmap list_fmap].
  - symmetry. apply take_ge. exact Hst.
  - unfold raise at 2. cbn [fst snd].
    rewrite IH by (rewrite generateAlert_alerts, length_take; lia).
    rewrite generateAlert_alerts, take_app_take, reverse_cons, <- app_assoc.
    reflexivity.
Qed.

Lemma generateInterval_alerts_bound st g env :
  (length (alerts st) <= 50)%nat ->
  (length (alerts (generateInterval st g env)) <= 50)%nat.
Proof.
  intros Hst. rewrite generateInterval_unfold. destruct (isRunning st); [|exact Hst].
  rewrite addTransaction_alerts, analyzeTransaction_alerts.
  destruct (51 <=? _); [rewrite length_take; lia | exact Hst].
Qed.

Lemma step_alerts_bound st e :
  (length (alerts st) <= 50)%nat -> (length (alerts (step st e)) <= 50)%nat.
Proof.
  intros Hst. destruct e as [g env|g env|i|i|now]; cbn [step].
  - apply generateInterval_alerts_bound, Hst.
  - unfold togglePause, startTransactionGeneration.
    destruct (isRunning (set_isRunning st _));
      [apply generateInterval_alerts_bound|]; exact Hst.
  - rewrite acknowledgeAlert_length. exact Hst.
  - unfold investigateTransaction. rewrite acknowledgeAlert_length. exact Hst.
  - exact Hst.
Qed.

Lemma run_alerts_bound es : forall st,
  (length (alerts st) <= 50)%nat -> (length (alerts (run st es)) <= 50)%nat.
Proof.
  induction es as [|e es IH]; intros st Hst; [exact Hst|].
  cbn [run foldl]. apply IH, step_alerts_bound, Hst.
Qed.

(** C8.  Every new alert is put at the front of the alert store and the
    first 50 are kept: the new alert and the 49 most recent old ones.
    Raising a list of alerts from the empty store leaves the 50 latest,
    latest first; after 51 these are the last 50 raised, the first one
    being gone.  In every state a constructed dashboard can reach, the
    store holds at most 50 alerts. *)
Theorem C8_alert_store_is_most_recent_first_capped_at_50 :
  (forall st t env,
     alerts (generateAlert st t env) = take 50 (newAlert t env :: alerts st)
     /\ alerts (generateAlert st t env) = newAlert t env :: take 49 (alerts st))
  /\ (forall st t env, (length (alerts st) < 50)%nat ->
        alerts (generateAlert st t env) = newAlert t env :: alerts st)
  /\ (forall raised,
        alerts (foldl raise emptyDashboard raised)
        = take 50 (reverse ((fun te => newAlert te.1 te.2) <$> raised))
        /\ length (alerts (foldl raise emptyDashboard raised))
           = (50 `min` length raised)%nat)
  /\ (forall r0 raised, length raised = 50%nat ->
        alerts (foldl raise emptyDashboard (r0 :: raised))
        = reverse ((fun te => newAlert te.1 te.2) <$> raised))
  /\ (forall g env es, (length (alerts (run (init g env) es)) <= 50)%nat).
Proof.
  assert (Hfold : forall raised,
            alerts (foldl raise emptyDashboard raised)
            = take 50 (reverse ((fun te => newAlert te.1 te.2) <$> raised))).
  { intros raised. rewrite foldl_raise by (cbn; lia).
    cbn [emptyDashboard alerts]. rewrite app_nil_r. reflexivity. }
  split; [|split; [|split; [|split]]].
  - intros st t env. rewrite generateAlert_alerts. split; reflexivity.
  - intros st t env Hlt. rewrite generateAlert_alerts.
    apply take_ge. cbn [length]. lia.
  - intros raised. rewrite Hfold, length_take, length_reverse, length_fmap. auto.
  - intros r0 raised Hlen. rewrite Hfold, fmap_cons.
    apply take_reverse_snoc. rewrite length_fmap. exact Hlen.
  - intros g env es. apply run_alerts_bound.
    unfold init, startTransactionGeneration.
    apply generateInterval_alerts_bound. cbn. lia.
Qed.

(** C8 at a concrete input: 51 alerts raised from the empty store. *)
Lemma C8_alert_store_is_most_recent_first_capped_at_50_witness :
  let r0 := (taggedTransaction "Structuring", calmEnv 1700000000000) in
  let raised := sampleRaised 50 in
  length raised = 50%nat
  /\ alerts (foldl raise emptyDashboard (r0 :: raised))
     = reverse ((fun te => newAlert te.1 te.2) <$> raised).
Proof.
  cbv zeta.
  assert (Hlen : length (sampleRaised 50) = 50%nat) by (vm_compute; reflexivity).
  split; [exact Hlen|].
  exact (proj1 (proj2 (proj2 (proj2
           C8_alert_store_is_most_recent_first_capped_at_50))) _ _ Hlen).
Defined.

(** ** Export *)

Lemma isHighRisk_iff t :
  isHighRisk t = true <-> tx_riskLevel t = High \/ tx_riskLevel t = Critical.
Proof.
  unfold isHighRisk. rewrite orb_true_iff, !bool_decide_eq_true. reflexivity.
Qed.

(** C9.  The report holds, in ledger order, one entry for each ledger
    transaction whose level is High or Critical and for no other; its count
    field is the number of these entries; an entry carries the id, the
    timestamp, the amount, the currency, the score, the matched patterns
    and the risk factors of its transaction; the report carries the date of
    its generation.  Exporting changes no state. *)
Theorem C9_export_is_the_high_and_critical_entries st now :
  sar_transactions (exportSAR st now)
  = sarEntry <$> filter (fun t => tx_riskLevel t = High \/ tx_riskLevel t = Critical)
                        (transactions st)
  /\ (forall e, e ∈ sar_transactions (exportSAR st now) <->
                exists t, t ∈ transactions st
                          /\ (tx_riskLevel t = High \/ tx_riskLevel t = Critical)
                          /\ e = sarEntry t)
  /\ totalTransactions (exportSAR st now)
     = Z.of_nat (length (sar_transactions (exportSAR st now)))
  /\ totalTransactions (exportSAR st now)
     = Z.of_nat (length (filter (fun t => tx_riskLevel t = High \/ tx_riskLevel t = Critical)
                                (transactions st)))
  /\ reportDate (exportSAR st now) = now
  /\ (forall t,
        sar_id (sarEntry t) = tx_id t
        /\ sar_timestamp (sarEntry t) = tx_timestamp t
        /\ sar_amount (sarEntry t) = tx_amount t
        /\ sar_currency (sarEntry t) = tx_currency t
        /\ sar_riskScore (sarEntry t) = tx_riskScore t
        /\ sar_patterns (sarEntry t) = tx_patterns t
        /\ sar_riskFactors (sarEntry t) = tx_riskFactors t)
  /\ step st (ExportClick now) = st.
Proof.
  assert (E : List.filter isHighRisk (transactions st)
              = filter (fun t => tx_riskLevel t = High \/ tx_riskLevel t = Critical)
                       (transactions st))
    by (apply bool_filter_decide; intros x; apply isHighRisk_iff).
  unfold exportSAR. cbn [sar_transactions totalTransactions reportDate].
  rewrite E. split; [reflexivity|]. split.
  - intros e. rewrite list_elem_of_fmap. split.
    + intros (t & -> & Ht). apply list_elem_of_filter in Ht as [Hl Hin]. eauto.
    + intros (t & Hin & Hl & ->). exists t. split; [reflexivity|].
      apply list_elem_of_filter. auto.
  - split; [rewrite length_fmap; reflexivity|]. repeat split.
Qed.

(** * Further properties *)

(** ** What one event does to the stores *)

Lemma analyzeTransaction_totalProcessed st t env :
  totalProcessed (analyzeTransaction st t env).1 = totalProcessed st.
Proof.
  unfold analyzeTransaction. cbn [fst updatePatternCounts set_patterns totalProcessed].
  destruct (51 <=? _); reflexivity.
Qed.

Lemma addTransaction_totalProcessed st t :
  totalProcessed (addTransaction st t) = totalProcessed st + 1.
Proof. unfold addTransaction. destruct (100 <? _); reflexivity. Qed.

Lemma acknowledgeAlert_totalProcessed st i :
  totalProcessed (acknowledgeAlert st i) = totalProcessed st.
Proof. unfold acknowledgeAlert. destruct (findIndex _ _); reflexivity. Qed.

Lemma acknowledgeAlert_isRunning st i :
  isRunning (acknowledgeAlert st i) = isRunning st.
Proof. unfold acknowledgeAlert. destruct (findIndex _ _); reflexivity. Qed.

Lemma generateInterval_effect st g env :
  isRunning st = true -> processedInto st (generateInterval st g env) g env.
Proof.
  intros Hrun. unfold processedInto. rewrite generateInterval_unfold, Hrun.
  rewrite addTransaction_transactions, addTransaction_patterns,
    addTransaction_totalProcessed, addTransaction_alerts,
    analyzeTransaction_transactions, analyzeTransaction_patterns,
    analyzeTransaction_totalProcessed, analyzeTransaction_alerts.
  auto.
Qed.

Lemma step_effect st e :
  (processed st e = []
   /\ transactions (step st e) = transactions st
   /\ patterns (step st e) = patterns st
   /\ totalProcessed (step st e) = totalProcessed st
   /\ (alerts (step st e) = alerts st
       \/ exists i, alerts (step st e) = alerts (acknowledgeAlert st i)))
  \/ (exists g env,
        processed st e = [assess st (newTransaction g) env]
        /\ processedInto st (step st e) g env).
Proof.
  destruct e as [g env|g env|i|i|now]; cbn [step processed].
  - destruct (isRunning st) eqn:Hrun.
    + right. exists g, env. split; [reflexivity|].
      apply generateInterval_effect, Hrun.
    + left. rewrite generateInterval_unfold, Hrun. auto 10.
  - unfold togglePause, startTransactionGeneration.
    destruct (isRunning st) eqn:Hrun; cbn [negb set_isRunning isRunning].
    + left. auto 10.
    + right. exists g, env. split; [reflexivity|].
      apply (generateInterval_effect (set_isRunning st true) g env). reflexivity.
  - left. rewrite acknowledgeAlert_transactions, acknowledgeAlert_patterns,
      acknowledgeAlert_totalProcessed. eauto 10.
  - left. unfold investigateTransaction.
    rewrite acknowledgeAlert_transactions, acknowledgeAlert_patterns,
      acknowledgeAlert_totalProcessed. eauto 10.
  - left. auto 10.
Qed.

(** Induction along a run, with the list of processed transactions. *)
Lemma run_history_inv (I : Dashboard -> list Transaction -> Prop) :
  (forall st H e, I st H -> I (step st e) (H ++ processed st e)) ->
  forall es st H, I st H -> I (run st es) (H ++ history st es).
Proof.
  intros Hstep. induction es as [|e es IH]; intros st H HI; cbn [run foldl history].
  - rewrite app_nil_r. exact HI.
  - rewrite app_assoc. apply IH, Hstep, HI.
Qed.

Lemma reachable_inv (I : Dashboard -> list Transaction -> Prop) :
  I startDashboard [] ->
  (forall st H e, I st H -> I (step st e) (H ++ processed st e)) ->
  forall g env es, I (run (init g env) es) (fullHistory g env es).
Proof.
  intros H0 Hstep g env es.
  pose proof (run_history_inv I Hstep (TimerFires g env :: es) startDashboard [] H0) as H.
  exact H.
Qed.

(** ** Pattern counters and processed transactions *)

Lemma NoDup_filter_eq_length (p : string) (l : list string) :
  NoDup l ->
  Z.of_nat (length (filter (fun q => q = p) l)) = if decide (p ∈ l) then 1 else 0.
Proof.
  induction 1 as [|q l Hq Hnd IH].
  - rewrite filter_nil. destruct (decide (p ∈ [])) as [Hin|]; [|reflexivity].
    apply elem_of_nil in Hin. destruct Hin.
  - rewrite filter_cons. destruct (decide (q = p)) as [->|Hne].
    + cbn [length]. rewrite Nat2Z.inj_succ, IH.
      rewrite decide_False by exact Hq.
      rewrite decide_True by apply list_elem_of_here. reflexivity.
    + rewrite IH. destruct (decide (p ∈ l)) as [Hin|Hin].
      * rewrite decide_True by (apply list_elem_of_further, Hin). reflexivity.
      * rewrite decide_False; [reflexivity|].
        intros Hc. apply elem_of_cons in Hc as [Hc|Hc]; [congruence | exact (Hin Hc)].
Qed.

Lemma assess_new_patterns_NoDup st g env :
  NoDup (tx_patterns (assess st (newTransaction g) env)).
Proof.
  cbn [assess tx_patterns]. rewrite applyRules_patterns.
  cbn [newTransaction tx_patterns app].
  destruct (Qeq_bool _ _ && _), (Qle_bool _ _ && _), (geographicRisk _),
    (String.eqb _ _ && _), (checkVelocity _ _ _), (Qltb (rLayering env) _),
    (Qltb (rSmurfing env) _); cbn [tagIf app];
    apply (bool_decide_unpack _); vm_compute; exact I.
Qed.

Lemma startDashboard_counters_zero p : default 0 (patterns startDashboard !! p) = 0.
Proof.
  unfold startDashboard, initializePatterns, emptyDashboard, amlPatterns.
  cbn [set_patterns patterns foldl fst].
  repeat (rewrite lookup_insert; destruct (decide _); [reflexivity|]).
  rewrite lookup_empty. reflexivity.
Qed.

Lemma filter_snoc_length {A} (P : A -> Prop) `{forall x, Decision (P x)} (l : list A) x :
  Z.of_nat (length (filter P (l ++ [x])))
  = Z.of_nat (length (filter P l)) + (if decide (P x) then 1 else 0).
Proof.
  rewrite filter_app, length_app, filter_cons, filter_nil.
  destruct (decide (P x)); cbn [length]; lia.
Qed.

Lemma counters_follow_history g env es p :
  default 0 (patterns (run (init g env) es) !! p)
  = Z.of_nat (length (filter (fun t => p ∈ tx_patterns t) (fullHistory g env es))).
Proof.
  revert p.
  apply (reachable_inv (fun st H => forall p,
           default 0 (patterns st !! p)
           = Z.of_nat (length (filter (fun t => p ∈ tx_patterns t) H)))).
  - intros p. rewrite filter_nil. apply startDashboard_counters_zero.
  - intros st H e IH p.
    destruct (step_effect st e) as [(-> & _ & -> & _)|(g' & env' & -> & _ & -> & _)].
    + rewrite app_nil_r. apply IH.
    + rewrite foldl_incrementPattern_lookup, IH, filter_snoc_length.
      rewrite NoDup_filter_eq_length by apply assess_new_patterns_NoDup.
      reflexivity.
Qed.

(** X1.  In every state a constructed dashboard can reach, the counter of a
    pattern tag is the number of transactions processed so far whose
    pattern list holds the tag; transactions that have left the ledger
    still count. *)
Theorem X1_counter_is_number_of_matching_transactions g env es p :
  patternCount (run (init g env) es) p
  = Z.of_nat (length (filter (fun t => p ∈ tx_patterns t) (fullHistory g env es))).
Proof. unfold patternCount. apply counters_follow_history. Qed.

(** ** Processed total and ledger length *)

Lemma totalProcessed_follows_history g env es :
  totalProcessed (run (init g env) es) = Z.of_nat (length (fullHistory g env es)).
Proof.
  apply (reachable_inv (fun st H => totalProcessed st = Z.of_nat (length H))).
  - reflexivity.
  - intros st H e IH.
    destruct (step_effect st e) as [(-> & _ & _ & -> & _)|(g' & env' & -> & _ & _ & -> & _)].
    + rewrite app_nil_r. exact IH.
    + rewrite length_app, IH. cbn [length]. lia.
Qed.

(** X2.  The processed total counts every transaction that went through the
    generation loop since construction, and the ledger holds the 100 most
    recent of them: its length is the smaller of 100 and the total. *)
Theorem X2_total_counts_all_and_ledger_keeps_100 g env es :
  processedToday (run (init g env) es) = Z.of_nat (length (fullHistory g env es))
  /\ transactions (run (init g env) es) = take 100 (reverse (fullHistory g env es))
  /\ Z.of_nat (length (transactions (run (init g env) es)))
     = Z.min 100 (totalProcessed (run (init g env) es))
  /\ 1 <= totalProcessed (run (init g env) es).
Proof.
  pose proof (totalProcessed_follows_history g env es) as Ht.
  assert (Hl : transactions (run (init g env) es)
               = take 100 (reverse (fullHistory g env es))).
  { rewrite run_transactions by (rewrite init_transactions; cbn; lia).
    rewrite init_transactions. unfold fullHistory, startDashboard.
    rewrite reverse_cons. reflexivity. }
  split; [exact Ht|]. split; [exact Hl|]. split.
  - rewrite Hl, Ht, length_take, length_reverse. lia.
  - rewrite Ht. unfold fullHistory. cbn [length]. lia.
Qed.

(** ** Alerts and risk levels *)

Lemma riskLevelOf_high s : isHighRisk_level (riskLevelOf s) = (51 <=? s).
Proof.
  unfold riskLevelOf, isHighRisk_level.
  destruct (Z.leb_spec 76 s); [destruct (Z.leb_spec 51 s); [reflexivity|lia]|].
  destruct (Z.leb_spec 51 s); [reflexivity|].
  destruct (26 <=? s); reflexivity.
Qed.

Lemma isHighRisk_assessed t :
  assessed t -> isHighRisk t = (51 <=? tx_riskScore t).
Proof.
  intros [_ Hl]. unfold isHighRisk. rewrite Hl.
  apply (riskLevelOf_high (tx_riskScore t)).
Qed.

(** X3.  [analyzeTransaction] raises an alert exactly for the transactions
    it rates High or Critical: for these the new, unacknowledged alert that
    carries the transaction's identifier goes to the front of the store and
    at most 49 older ones stay behind it; for Low and Medium the store is
    left alone. *)
Theorem X3_alert_raised_exactly_for_high_and_critical st transaction env :
  let t := (analyzeTransaction st transaction env).2 in
  let st' := (analyzeTransaction st transaction env).1 in
  (tx_riskLevel t = High \/ tx_riskLevel t = Critical <-> 51 <= tx_riskScore t)
  /\ alerts st' = (if isHighRisk t
                   then newAlert t env :: take 49 (alerts st)
                   else alerts st)
  /\ al_transactionId (newAlert t env) = tx_id transaction
  /\ al_acknowledged (newAlert t env) = false.
Proof.
  intros t st'. subst t st'.
  rewrite analyzeTransaction_alerts, analyzeTransaction_assess.
  pose proof (isHighRisk_assessed _ (assess_assessed st transaction env)) as Hh.
  split; [|split; [|split; reflexivity]].
  - rewrite <- isHighRisk_iff, Hh. apply Z.leb_le.
  - rewrite Hh. destruct (51 <=? _); reflexivity.
Qed.

Lemma acknowledgeAlert_Forall (P : Alert -> Prop) st i :
  (forall a, P a -> P (setAcknowledged a)) ->
  Forall P (alerts st) -> Forall P (alerts (acknowledgeAlert st i)).
Proof.
  intros Hset HP. unfold acknowledgeAlert.
  destruct (findIndex _ _) as [k|]; [|exact HP].
  cbn [set_alerts alerts]. apply Forall_alter; [exact HP|].
  intros x _. apply Hset.
Qed.

Lemma refersToHighRisk_grows H t a :
  refersToHighRisk H a -> refersToHighRisk (H ++ [t]) a.
Proof.
  intros (t' & Hin & Hid & Hs). exists t'.
  split; [apply elem_of_app; left; exact Hin | auto].
Qed.

(** X4.  Every alert in the store of a reachable dashboard refers, by its
    transaction identifier, to a transaction that was processed and scored
    51 or more; the transaction may have left the ledger since. *)
Theorem X4_alerts_refer_to_processed_high_risk_transactions g env es :
  Forall (refersToHighRisk (fullHistory g env es)) (alerts (run (init g env) es)).
Proof.
  apply (reachable_inv (fun st H => Forall (refersToHighRisk H) (alerts st))).
  - constructor.
  - intros st H e IH.
    destruct (step_effect st e)
      as [(-> & _ & _ & _ & Ha)|(g' & env' & -> & _ & _ & _ & Ha)].
    + rewrite app_nil_r. destruct Ha as [-> | [i ->]]; [exact IH|].
      apply acknowledgeAlert_Forall; [|exact IH].
      intros a (t & Hin & Hid & Hs). exists t. auto.
    + rewrite Ha.
      assert (IH' : Forall (refersToHighRisk
                              (H ++ [assess st (newTransaction g') env'])) (alerts st)).
      { eapply Forall_impl; [exact IH|]. intros a. apply refersToHighRisk_grows. }
      destruct (Z.leb_spec 51 (tx_riskScore (assess st (newTransaction g') env')))
        as [Hs|Hs]; [|exact IH'].
      apply Forall_take. constructor; [|exact IH'].
      exists (assess st (newTransaction g') env').
      split; [apply elem_of_app; right; apply list_elem_of_here|].
      split; [reflexivity | exact Hs].
Qed.

(** ** Export, statistics and the risk chart on reachable ledgers *)

Lemma bool_filter_decide_Forall {A} (f : A -> bool) (P : A -> Prop)
    `{forall x, Decision (P x)} (l : list A) :
  Forall (fun x => f x = true <-> P x) l -> List.filter f l = filter P l.
Proof.
  induction 1 as [|x l Hx _ IH]; [reflexivity|].
  cbn [List.filter]. rewrite filter_cons, IH.
  destruct (f x) eqn:E; destruct (decide (P x)) as [HP|HP]; try reflexivity.
  - exfalso. apply HP, Hx. reflexivity.
  - apply Hx in HP. discriminate HP.
Qed.

Lemma reachable_ledger_assessed g env es :
  Forall assessed (transactions (run (init g env) es)).
Proof. apply run_ledger_assessed, init_ledger_assessed. Qed.

(** X5.  On a reachable dashboard the report is made of the ledger entries
    that scored 51 or more, in ledger order: every exported score lies in
    [51,100], no ledger entry with such a score is left out, and the count
    field is their number. *)
Theorem X5_export_is_the_entries_scoring_51_or_more g env es now :
  let st := run (init g env) es in
  sar_transactions (exportSAR st now)
  = sarEntry <$> filter (fun t => 51 <= tx_riskScore t) (transactions st)
  /\ totalTransactions (exportSAR st now)
     = Z.of_nat (length (filter (fun t => 51 <= tx_riskScore t) (transactions st)))
  /\ Forall (fun e => 51 <= sar_riskScore e <= 100)
            (sar_transactions (exportSAR st now)).
Proof.
  intros st.
  pose proof (reachable_ledger_assessed g env es) as Hass. fold st in Hass.
  assert (E : List.filter isHighRisk (transactions st)
              = filter (fun t => 51 <= tx_riskScore t) (transactions st)).
  { apply bool_filter_decide_Forall.
    eapply Forall_impl; [exact Hass|]. intros t Ht.
    rewrite (isHighRisk_assessed t Ht). apply Z.leb_le. }
  unfold exportSAR. cbn [sar_transactions totalTransactions].
  rewrite E. split; [reflexivity|]. split; [reflexivity|].
  apply Forall_fmap, Forall_forall. intros t Hin.
  apply list_elem_of_filter in Hin as [Hs Hin].
  rewrite Forall_forall in Hass. destruct (Hass t Hin) as [[_ Hhi] _].
  cbn. lia.
Qed.

Lemma level_counts_sum (l : list Transaction) :
  Z.of_nat (length (List.filter (fun t => bool_decide (tx_riskLevel t = Low)) l))
  + Z.of_nat (length (List.filter (fun t => bool_decide (tx_riskLevel t = Medium)) l))
  + Z.of_nat (length (List.filter (fun t => bool_decide (tx_riskLevel t = High)) l))
  + Z.of_nat (length (List.filter (fun t => bool_decide (tx_riskLevel t = Critical)) l))
  = Z.of_nat (length l).
Proof.
  induction l as [|t l IH]; [reflexivity|].
  cbn [List.filter].
  destruct (tx_riskLevel t); repeat case_bool_decide; try congruence;
    cbn [length]; lia.
Qed.

Lemma high_count_split (l : list Transaction) :
  Z.of_nat (length (List.filter isHighRisk l))
  = Z.of_nat (length (List.filter (fun t => bool_decide (tx_riskLevel t = High)) l))
    + Z.of_nat (length (List.filter (fun t => bool_decide (tx_riskLevel t = Critical)) l)).
Proof.
  induction l as [|t l IH]; [reflexivity|].
  cbn [List.filter]. unfold isHighRisk at 1.
  destruct (tx_riskLevel t); repeat case_bool_decide; try congruence;
    cbn [orb length]; lia.
Qed.

(** X6.  The four numbers of the risk-distribution chart add up to the
    length of the ledger, so to at most 100 on a reachable dashboard; the
    high-risk statistic is the High and the Critical number together, and
    it is the count the export report would carry. *)
Theorem X6_risk_counts_partition_the_ledger st now :
  foldr Z.add 0 (riskCounts st) = Z.of_nat (length (transactions st))
  /\ highRiskCount st = countLevel st High + countLevel st Critical
  /\ highRiskCount st = totalTransactions (exportSAR st now)
  /\ (forall g env es, foldr Z.add 0 (riskCounts (run (init g env) es)) <= 100).
Proof.
  assert (Hsum : forall s,
            foldr Z.add 0 (riskCounts s) = Z.of_nat (length (transactions s))).
  { intros s. unfold riskCounts, countLevel. cbn [foldr].
    rewrite <- (level_counts_sum (transactions s)). lia. }
  split; [apply Hsum|].
  split; [apply high_count_split|]. split; [reflexivity|].
  intros g env es. rewrite Hsum.
  rewrite run_transactions by (rewrite init_transactions; cbn; lia).
  rewrite length_take. lia.
Qed.

(** ** The rules on the amount *)

Lemma Qltb_lt x y : Qltb x y = true <-> (x < y)%Q.
Proof.
  unfold Qltb. rewrite negb_true_iff. split.
  - intros H. apply Qnot_le_lt. intros Hle.
    apply Qle_bool_iff in Hle. congruence.
  - intros H. destruct (Qle_bool y x) eqn:E; [|reflexivity].
    apply Qle_bool_iff in E. exfalso. exact (Qlt_not_le _ _ H E).
Qed.

Lemma Qtruncate_integer (x : Q) (k : Z) : (x == inject_Z k)%Q -> Qtruncate x = k.
Proof.
  destruct x as [n d]. unfold Qeq, Qtruncate. cbn [Qnum Qden inject_Z].
  intros H. rewrite Z.mul_1_r in H. subst n. apply Z.quot_mul. discriminate.
Qed.

(** [a % 1000 === 0] holds exactly of the integer multiples of 1000. *)
Lemma jsRem_1000_zero (a : Q) :
  Qeq_bool (jsRem a (1000#1)) (0#1) = true <->
  exists k : Z, (a == inject_Z (1000 * k))%Q.
Proof.
  rewrite Qeq_bool_iff. unfold jsRem. split.
  - intros H. exists (Qtruncate (a / (1000#1))).
    rewrite inject_Z_mult.
    assert (E : (a == (1000#1) * inject_Z (Qtruncate (a / (1000#1))))%Q) by lra.
    rewrite E at 1. reflexivity.
  - intros [k Hk].
    assert (Hq : (a / (1000#1) == inject_Z k)%Q).
    { rewrite Hk, inject_Z_mult. field. }
    rewrite (Qtruncate_integer _ _ Hq), Hk, inject_Z_mult.
    change (inject_Z 1000) with (1000#1). ring.
Qed.

Lemma rule_riskFactors c d f tag a :
  sc_riskFactors (rule c d f tag a) = sc_riskFactors a ++ tagIf c f.
Proof. destruct c; cbn; [reflexivity | symmetry; apply app_nil_r]. Qed.

(** The risk factors pushed by [analyzeTransaction], in rule order. *)
Lemma applyRules_riskFactors st t env :
  sc_riskFactors (applyRules st t env) =
  tagIf (Qltb (100000#1) (tx_amount t)) "Large amount transaction"
  ++ tagIf (Qeq_bool (jsRem (tx_amount t) (1000#1)) (0#1) && Qltb (5000#1) (tx_amount t))
           "Suspicious round amount"
  ++ tagIf (Qle_bool (9000#1) (tx_amount t) && Qltb (tx_amount t) (10000#1))
           "Amount just under reporting threshold"
  ++ tagIf (geographicRisk t) "High-risk jurisdiction involved"
  ++ tagIf (String.eqb (tx_paymentMethod t) "Cash Deposit" && Qltb (5000#1) (tx_amount t))
           "Large cash transaction"
  ++ tagIf (String.eqb (tx_paymentMethod t) "Cryptocurrency") "Cryptocurrency transaction"
  ++ tagIf (checkVelocity st t (velocityNow env)) "High transaction velocity detected"
  ++ tagIf (Qltb (rLayering env) layeringRate) "Complex layering pattern detected"
  ++ tagIf (Qltb (rSmurfing env) smurfingRate) "Potential smurfing activity".
Proof.
  unfold applyRules. cbv zeta. rewrite !rule_riskFactors. cbn [sc_riskFactors app].
  rewrite <- !app_assoc. reflexivity.
Qed.

Lemma round_tag_iff st g env :
  "Round Amount" ∈ tx_patterns (assess st (newTransaction g) env) <->
  Qeq_bool (jsRem (g_amount g) (1000#1)) (0#1) && Qltb (5000#1) (g_amount g) = true.
Proof.
  cbn [assess tx_patterns]. rewrite applyRules_patterns.
  cbn [newTransaction tx_patterns tx_amount app].
  rewrite !elem_of_app, !elem_of_tagIf. split.
  - intros [[H _]|[[_ H]|[[_ H]|[[_ H]|[[_ H]|[[_ H]|[_ H]]]]]]];
      try discriminate H; exact H.
  - intros H. left. split; [exact H | reflexivity].
Qed.

Lemma structuring_tag_iff st g env :
  "Structuring" ∈ tx_patterns (assess st (newTransaction g) env) <->
  Qle_bool (9000#1) (g_amount g) && Qltb (g_amount g) (10000#1) = true.
Proof.
  cbn [assess tx_patterns]. rewrite applyRules_patterns.
  cbn [newTransaction tx_patterns tx_amount app].
  rewrite !elem_of_app, !elem_of_tagIf. split.
  - intros [[_ H]|[[H _]|[[_ H]|[[_ H]|[[_ H]|[[_ H]|[_ H]]]]]]];
      try discriminate H; exact H.
  - intros H. right. left. split; [exact H | reflexivity].
Qed.

(** X7.  A generated transaction gets the Round Amount tag exactly when its
    amount is an integer multiple of 1000 and greater than 5000: 6000 is
    tagged, 5000 is not, and neither is 6000.5. *)
Theorem X7_round_amount_tag_iff_multiple_of_1000_above_5000 st g env :
  ("Round Amount" ∈ tx_patterns (generateTransaction st g env).2 <->
   (exists k : Z, (g_amount g == inject_Z (1000 * k))%Q) /\ (5000#1 < g_amount g)%Q)
  /\ ("Round Amount" ∈ tx_patterns (generateTransaction st g env).2 <->
      exists k : Z, 6 <= k /\ (g_amount g == inject_Z (1000 * k))%Q).
Proof.
  unfold generateTransaction. rewrite analyzeTransaction_assess, round_tag_iff.
  rewrite andb_true_iff, jsRem_1000_zero, Qltb_lt.
  split; [reflexivity|]. split.
  - intros [[k Hk] Hgt]. exists k. split; [|exact Hk].
    rewrite Hk in Hgt. change (5000#1) with (inject_Z 5000) in Hgt.
    rewrite <- Zlt_Qlt in Hgt. lia.
  - intros [k [Hk Ha]]. split; [exists k; exact Ha|].
    rewrite Ha. change (5000#1) with (inject_Z 5000).
    rewrite <- Zlt_Qlt. lia.
Qed.

(** X8.  A generated transaction gets the Structuring tag exactly when
    9000 <= amount < 10000.  Then the large-amount rule has not fired, and
    the Round Amount tag comes with it only for the amount 9000. *)
Theorem X8_structuring_tag_iff_amount_in_9000_10000 st g env :
  let t := (generateTransaction st g env).2 in
  ("Structuring" ∈ tx_patterns t <->
   (9000#1 <= g_amount g)%Q /\ (g_amount g < 10000#1)%Q)
  /\ ~ ("Structuring" ∈ tx_patterns t
        /\ "Large amount transaction" ∈ tx_riskFactors t)
  /\ ("Structuring" ∈ tx_patterns t /\ "Round Amount" ∈ tx_patterns t <->
      (g_amount g == 9000#1)%Q).
Proof.
  intros t. subst t. unfold generateTransaction. rewrite analyzeTransaction_assess.
  assert (Hs : "Structuring" ∈ tx_patterns (assess st (newTransaction g) env) <->
               (9000#1 <= g_amount g)%Q /\ (g_amount g < 10000#1)%Q).
  { rewrite structuring_tag_iff, andb_true_iff, Qle_bool_iff, Qltb_lt. reflexivity. }
  split; [exact Hs|]. split.
  - intros [H1 H2]. apply Hs in H1 as [_ Hlt].
    cbn [assess tx_riskFactors] in H2. rewrite applyRules_riskFactors in H2.
    cbn [newTransaction tx_amount] in H2.
    rewrite !elem_of_app, !elem_of_tagIf in H2.
    destruct H2 as [[H _]|[[_ H]|[[_ H]|[[_ H]|[[_ H]|[[_ H]|[[_ H]|[[_ H]|[_ H]]]]]]]]];
      try discriminate H.
    apply Qltb_lt in H. lra.
  - rewrite Hs, round_tag_iff, andb_true_iff, jsRem_1000_zero, Qltb_lt. split.
    + intros [[Hlo Hhi] [[k Hk] _]].
      rewrite Hk in Hlo, Hhi |- *.
      change (9000#1) with (inject_Z 9000) in *.
      change (10000#1) with (inject_Z 10000) in *.
      rewrite <- Zle_Qle in Hlo. rewrite <- Zlt_Qlt in Hhi.
      rewrite inject_Z_injective. lia.
    + intros Ha. split; [split; lra|]. split; [|lra].
      exists 9. rewrite Ha. reflexivity.
Qed.

(** ** Risk factors, tags and the score *)

Lemma omap_length_le {A B} (f : A -> option B) (l : list A) :
  (length (omap f l) <= length l)%nat.
Proof.
  induction l as [|x l IH]; [reflexivity|].
  cbn [omap list_omap]. destruct (f x); cbn [length]; lia.
Qed.

(** X9.  The risk factors account for the score and for the tags: the
    score before jitter is the sum of the deltas of the listed factors, and
    the tags pushed are those of the listed factors, in the same order, so
    there is no pushed tag without a factor and there are never more pushed
    tags than factors. *)
Theorem X9_risk_factors_account_for_score_and_tags st transaction env :
  let a := applyRules st transaction env in
  sc_riskScore a = foldr Z.add 0 (factorDelta <$> sc_riskFactors a)
  /\ sc_patterns a = tx_patterns transaction ++ omap factorTag (sc_riskFactors a)
  /\ tx_riskFactors (analyzeTransaction st transaction env).2 = sc_riskFactors a
  /\ (length (omap factorTag (sc_riskFactors a)) <= length (sc_riskFactors a))%nat.
Proof.
  intros a. subst a.
  assert (Hp : sc_patterns (applyRules st transaction env)
               = tx_patterns transaction
                 ++ omap factorTag (sc_riskFactors (applyRules st transaction env))).
  { rewrite applyRules_patterns, applyRules_riskFactors.
    destruct (Qltb (100000#1) _), (Qeq_bool _ _ && _), (Qle_bool _ _ && _),
      (geographicRisk _), (String.eqb _ "Cash Deposit" && _),
      (String.eqb _ "Cryptocurrency"), (checkVelocity _ _ _),
      (Qltb (rLayering env) _), (Qltb (rSmurfing env) _); reflexivity. }
  split; [|split; [exact Hp|split; [reflexivity|]]].
  - rewrite applyRules_riskScore, applyRules_riskFactors.
    destruct (Qltb (100000#1) _), (Qeq_bool _ _ && _), (Qle_bool _ _ && _),
      (geographicRisk _), (String.eqb _ "Cash Deposit" && _),
      (String.eqb _ "Cryptocurrency"), (checkVelocity _ _ _),
      (Qltb (rLayering env) _), (Qltb (rSmurfing env) _); reflexivity.
  - apply omap_length_le.
Qed.

Lemma large_excludes_structuring (a : Q) :
  Qltb (100000#1) a = true -> Qle_bool (9000#1) a && Qltb a (10000#1) = false.
Proof.
  intros H. apply Qltb_lt in H.
  destruct (Qle_bool (9000#1) a && Qltb a (10000#1)) eqn:E; [|reflexivity].
  apply andb_true_iff in E as [_ E]. apply Qltb_lt in E. lra.
Qed.

Lemma cash_excludes_crypto (m : string) (b : bool) :
  String.eqb m "Cash Deposit" && b = true -> String.eqb m "Cryptocurrency" = false.
Proof.
  intros H. apply andb_true_iff in H as [H _].
  apply String.eqb_eq in H. subst m. reflexivity.
Qed.

Lemma delta_bounds c d : 0 <= d -> 0 <= delta c d <= d.
Proof. destruct c; cbn; lia. Qed.

Lemma length_tagIf c s : length (tagIf c s) = if c then 1%nat else 0%nat.
Proof. destruct c; reflexivity. Qed.

(** X10.  The score before jitter lies between 0 and 230 and at most seven
    risk factors are listed, because the large-amount rule and the
    structuring rule exclude each other and so do the cash rule and the
    cryptocurrency rule; 230 is reached. *)
Theorem X10_score_before_jitter_is_at_most_230 :
  (forall st transaction env,
     0 <= sc_riskScore (applyRules st transaction env) <= 230
     /\ (length (tx_riskFactors (analyzeTransaction st transaction env).2) <= 7)%nat)
  /\ sc_riskScore (applyRules (submit startDashboard (burst 6))
                              (newTransaction worstGenerated)
                              (stormEnv 1700000006000)) = 230.
Proof.
  split; [|vm_compute; reflexivity].
  intros st t env.
  rewrite analyzeTransaction_assess. cbn [assess tx_riskFactors].
  rewrite applyRules_riskScore, applyRules_riskFactors.
  rewrite !length_app, !length_tagIf.
  pose proof (large_excludes_structuring (tx_amount t)) as E1.
  pose proof (cash_excludes_crypto (tx_paymentMethod t) (Qltb (5000#1) (tx_amount t)))
    as E2.
  destruct (Qltb (100000#1) (tx_amount t));
    [rewrite E1 by reflexivity|];
    (destruct (String.eqb (tx_paymentMethod t) "Cash Deposit"
               && Qltb (5000#1) (tx_amount t));
       [rewrite E2 by reflexivity|]);
    repeat match goal with
           | |- context [delta ?c ?d] =>
               lazymatch c with
               | true => fail
               | false => fail
               | _ => destruct c
               end
           end;
    cbn [delta]; split; lia.
Qed.

(** ** Jitter *)






(** ** The generator *)











(** ** The geographic rule and the location table *)

Lemma table_locations_are_clear loc :
  loc ∈ locations -> existsb (includes loc) highRiskCountries = false.
Proof.
  intros Hin.
  assert (Hall : forallb (fun l => negb (existsb (includes l) highRiskCountries))
                         locations = true) by (vm_compute; reflexivity).
  rewrite forallb_forall in Hall.
  apply negb_true_iff, Hall, list_elem_of_In, Hin.
Qed.

Lemma existsb_orb_split {A} (f h : A -> bool) (l : list A) :
  existsb (fun x => f x || h x) l = existsb f l || existsb h l.
Proof.
  induction l as [|x l IH]; [reflexivity|].
  cbn [existsb]. rewrite IH.
  destruct (f x), (h x), (existsb f l), (existsb h l); reflexivity.
Qed.

Lemma geographicRisk_table g :
  locationsFromTable g -> geographicRisk (newTransaction g) = false.
Proof.
  intros [Hs Hr]. unfold geographicRisk.
  rewrite (existsb_orb_split (includes (tx_senderLocation (newTransaction g)))
                             (includes (tx_receiverLocation (newTransaction g)))).
  cbn [newTransaction tx_senderLocation tx_receiverLocation].
  rewrite (table_locations_are_clear _ Hs), (table_locations_are_clear _ Hr).
  reflexivity.
Qed.

Lemma geographic_absent st g env :
  locationsFromTable g ->
  ("Geographic Risk" ∉ tx_patterns (assess st (newTransaction g) env))
  /\ ("High-risk jurisdiction involved" ∉ tx_riskFactors (assess st (newTransaction g) env)).
Proof.
  intros Hg. pose proof (geographicRisk_table g Hg) as Hgeo.
  cbn [assess tx_patterns tx_riskFactors].
  rewrite applyRules_patterns, applyRules_riskFactors, Hgeo.
  cbn [newTransaction tx_patterns app].
  rewrite !elem_of_app, !elem_of_tagIf. split.
  - intros [[_ H]|[[_ H]|[[H _]|[[_ H]|[[_ H]|[[_ H]|[_ H]]]]]]]; discriminate H.
  - intros [[_ H]|[[_ H]|[[_ H]|[[H _]|[[_ H]|[[_ H]|[[_ H]|[[_ H]|[_ H]]]]]]]]];
      discriminate H.
Qed.

Lemma processed_generated st e t :
  t ∈ processed st e ->
  exists g env, eventGenerated e = Some g /\ t = assess st (newTransaction g) env.
Proof.
  destruct e as [g env|g env|i|i|now]; cbn [processed eventGenerated];
    try (intros H; apply elem_of_nil in H; destruct H).
  - destruct (isRunning st); intros H;
      [apply list_elem_of_singleton in H; eauto | apply elem_of_nil in H; destruct H].
  - destruct (isRunning st); intros H;
      [apply elem_of_nil in H; destruct H | apply list_elem_of_singleton in H; eauto].
Qed.

Lemma history_generated es : forall st t,
  t ∈ history st es ->
  exists e st' g env,
    e ∈ es /\ eventGenerated e = Some g /\ t = assess st' (newTransaction g) env.
Proof.
  induction es as [|e es IH]; intros st t Hin; cbn [history] in Hin.
  - apply elem_of_nil in Hin. destruct Hin.
  - apply elem_of_app in Hin as [Hin|Hin].
    + destruct (processed_generated st e t Hin) as (g & env & Hg & Ht).
      exists e, st, g, env. split; [apply list_elem_of_here | auto].
    + destruct (IH _ _ Hin) as (e' & st' & g & env & He & Hg & Ht).
      exists e', st', g, env. split; [apply list_elem_of_further, He | auto].
Qed.

(** X15.  None of the generator's ten locations contains the name of a
    high-risk country.  As long as the locations of the processed
    transactions come from that table, the geographic rule never fires: no
    processed transaction carries the Geographic Risk tag or its risk
    factor, and the counter of the tag stays at 0. *)
Theorem X15_geographic_rule_never_fires_on_table_locations g env es :
  locationsFromTable g ->
  Forall eventLocationsFromTable es ->
  Forall (fun t => ("Geographic Risk" ∉ tx_patterns t)
                   /\ ("High-risk jurisdiction involved" ∉ tx_riskFactors t))
         (fullHistory g env es)
  /\ patternCount (run (init g env) es) "Geographic Risk" = 0.
Proof.
  intros Hg Hes.
  assert (Hall : Forall (fun t => ("Geographic Risk" ∉ tx_patterns t)
                   /\ ("High-risk jurisdiction involved" ∉ tx_riskFactors t))
                        (fullHistory g env es)).
  { unfold fullHistory. constructor; [apply geographic_absent, Hg|].
    apply Forall_forall. intros t Hin.
    destruct (history_generated es _ _ Hin) as (e & st' & g' & env' & He & Hg' & ->).
    rewrite Forall_forall in Hes.
    apply geographic_absent, (Hes e He g' Hg'). }
  split; [exact Hall|].
  unfold patternCount. rewrite counters_follow_history.
  induction Hall as [|t H [Ht _] _ IH]; [reflexivity|].
  rewrite filter_cons, decide_False by exact Ht. exact IH.
Qed.

(** X15 at a concrete input: two transfers from London to Singapore. *)
Lemma X15_geographic_rule_never_fires_on_table_locations_witness :
  let g := sampleGenerated "TXN17000000000001" 1700000000000 (250#1)
                           "ACH" "London, UK" "ACC1" in
  let env := calmEnv 1700000000000 in
  Forall (fun t => ("Geographic Risk" ∉ tx_patterns t)
                   /\ ("High-risk jurisdiction involved" ∉ tx_riskFactors t))
         (fullHistory g env [TimerFires g env])
  /\ patternCount (run (init g env) [TimerFires g env]) "Geographic Risk" = 0.
Proof.
  assert (Hg : locationsFromTable
                 (sampleGenerated "TXN17000000000001" 1700000000000 (250#1)
                                  "ACH" "London, UK" "ACC1")).
  { split; apply (bool_decide_unpack _); vm_compute; exact I. }
  apply (X15_geographic_rule_never_fires_on_table_locations _ _ _ Hg).
  constructor; [|constructor].
  intros g' Hg'. cbn in Hg'. injection Hg' as <-. exact Hg.
Defined.

(** ** New alerts *)




(** ** The transaction list *)




(** ** The alert list and acknowledging *)







(** ** From an alert to its transaction *)



(** ** Pausing *)

Lemma set_isRunning_back st :
  isRunning st = true -> set_isRunning (set_isRunning st false) true = st.
Proof. destruct st; cbn; intros ->; reflexivity. Qed.

Lemma paused_ignores_timers inputs : forall st,
  isRunning st = false -> run st (timerEvents inputs) = st.
Proof.
  induction inputs as [|[g env] inputs IH]; intros st Hp; [reflexivity|].
  cbn [timerEvents List.map run foldl step fst snd].
  rewrite generateInterval_unfold, Hp. apply IH, Hp.
Qed.

(** X21.  On a running dashboard the pause button only clears the running
    flag; while the flag is clear, timer callbacks process nothing, however
    many fire; pressing the button again sets the flag and processes one
    transaction at once, so that pause followed by resume amounts to one
    run of the generation loop on the dashboard as it was. *)
Theorem X21_pause_then_resume_is_one_run_of_the_loop st g1 env1 g2 env2 inputs :
  isRunning st = true ->
  let paused := togglePause st g1 env1 in
  paused = set_isRunning st false
  /\ transactions paused = transactions st
  /\ alerts paused = alerts st
  /\ patterns paused = patterns st
  /\ totalProcessed paused = totalProcessed st
  /\ run paused (timerEvents inputs) = paused
  /\ togglePause paused g2 env2 = generateInterval st g2 env2
  /\ isRunning (togglePause paused g2 env2) = true.
Proof.
  intros Hrun paused.
  assert (Hp : paused = set_isRunning st false).
  { subst paused. unfold togglePause. rewrite Hrun. reflexivity. }
  rewrite Hp.
  assert (Hres : togglePause (set_isRunning st false) g2 env2 = generateInterval st g2 env2).
  { unfold togglePause, startTransactionGeneration.
    cbn [set_isRunning isRunning negb]. rewrite <- (set_isRunning_back st Hrun) at 2.
    reflexivity. }
  repeat (split; [reflexivity|]).
  split; [apply paused_ignores_timers; reflexivity|].
  split; [exact Hres|].
  rewrite Hres, generateInterval_isRunning. exact Hrun.
Qed.

(** X21 at a concrete input: a new dashboard, paused and resumed. *)
Lemma X21_pause_then_resume_is_one_run_of_the_loop_witness :
  let g := riskyGenerated "TXN1700000000000412" 1700000000000 in
  let env := calmEnv 1700000000000 in
  let paused := togglePause startDashboard g env in
  run paused (timerEvents (burst 3)) = paused
  /\ togglePause paused g env = generateInterval startDashboard g env.
Proof.
  cbv zeta.
  pose proof (X21_pause_then_resume_is_one_run_of_the_loop
                startDashboard
                (riskyGenerated "TXN1700000000000412" 1700000000000)
                (calmEnv 1700000000000)
                (riskyGenerated "TXN1700000000000412" 1700000000000)
                (calmEnv 1700000000000) (burst 3) eq_refl) as H.
  cbv zeta in H.
  exact (conj (proj1 (proj2 (proj2 (proj2 (proj2 (proj2 H))))))
              (proj1 (proj2 (proj2 (proj2 (proj2 (proj2 (proj2 H)))))))).
Defined.

(** ** The alert-trends chart *)

Lemma last_insert_last {A} (l : list A) x :
  l <> [] -> last (<[(length l - 1)%nat := x]> l) = Some x.
Proof.
  intros Hne. rewrite last_lookup, length_insert.
  replace (pred (length l)) with (length l - 1)%nat by lia.
  apply list_lookup_insert_eq.
  destruct l; [congruence | cbn [length]; lia].
Qed.

Lemma updateAlertTrends_shaped getHours st now draw tr :
  tr = emptyTrends \/ trendsShaped tr ->
  let tr' := updateAlertTrends getHours st now draw tr in
  trendsShaped tr'
  /\ last (tr_labels tr') = Some (hourLabel (getHours now))
  /\ last (tr_data tr')
     = Some (Z.of_nat (length (List.filter
               (fun alert => getHours (al_timestamp alert) =? getHours now)
               (alerts st)))).
Proof.
  intros Hin tr'. subst tr'. unfold updateAlertTrends. cbv zeta.
  set (currentAlerts := Z.of_nat (length (List.filter _ (alerts st)))).
  set (tr1 := if (length (tr_labels tr) =? 0)%nat then _ else tr).
  set (tr2 := if (12 <? length (tr_labels tr1))%nat then _ else tr1).
  assert (H2 : length (tr_labels tr2) = 12%nat /\ length (tr_data tr2) = 12%nat).
  { destruct Hin as [->|[Heq Hlen]].
    - subst tr2 tr1. cbn. auto.
    - assert (E1 : tr1 = tr).
      { subst tr1. destruct (Nat.eqb_spec (length (tr_labels tr)) 0); [lia | reflexivity]. }
      subst tr2. rewrite E1.
      destruct (Nat.ltb_spec 12 (length (tr_labels tr))).
      + cbn [tr_labels tr_data]. rewrite !length_drop. lia.
      + lia. }
  destruct H2 as [Hl Hd].
  destruct (bool_decide (last (tr_labels tr2) = Some (hourLabel (getHours now)))) eqn:E.
  - apply bool_decide_eq_true in E. cbn [tr_labels tr_data].
    split; [|split; [exact E|]].
    + unfold trendsShaped. cbn [tr_labels tr_data]. rewrite length_insert. lia.
    + apply last_insert_last. intros Hnil. rewrite Hnil in Hd. discriminate Hd.
  - cbn [tr_labels tr_data]. split; [|split; apply last_snoc].
    unfold trendsShaped. cbn [tr_labels tr_data]. rewrite !length_app. cbn [length]. lia.
Qed.

(** X22.  The alert-trends chart keeps as many counts as labels.  From the
    first update on there are twelve or thirteen of them, however many
    updates follow; after each update the last label is that of the
    current hour and the last count is the number of stored alerts stamped
    in that hour. *)
Theorem X22_alert_trends_chart_keeps_its_shape getHours tr calls st now draw :
  tr = emptyTrends \/ trendsShaped tr ->
  let tr' := updateAlertTrends getHours st now draw
               (updateAlertTrendsAll getHours tr calls) in
  length (tr_labels tr') = length (tr_data tr')
  /\ (12 <= length (tr_labels tr') <= 13)%nat
  /\ last (tr_labels tr') = Some (hourLabel (getHours now))
  /\ last (tr_data tr')
     = Some (Z.of_nat (length (List.filter
               (fun alert => getHours (al_timestamp alert) =? getHours now)
               (alerts st)))).
Proof.
  intros Hin tr'.
  assert (Hall : forall calls tr0,
            tr0 = emptyTrends \/ trendsShaped tr0 ->
            updateAlertTrendsAll getHours tr0 calls = emptyTrends
            \/ trendsShaped (updateAlertTrendsAll getHours tr0 calls)).
  { clear. induction calls as [|[[s n] d] calls IH]; intros tr0 H0; [exact H0|].
    unfold updateAlertTrendsAll. cbn [foldl fst snd].
    apply IH. right.
    apply (updateAlertTrends_shaped getHours s n d tr0 H0). }
  destruct (updateAlertTrends_shaped getHours st now draw _ (Hall calls tr Hin))
    as ([H1 H2] & H3 & H4).
  subst tr'. auto.
Qed.

(** X22 at a concrete input: the first update of the empty chart, at an
    hour taken as UTC. *)
Lemma X22_alert_trends_chart_keeps_its_shape_witness :
  let getHours := fun ms : Z => (ms / 3600000) mod 24 in
  let tr' := updateAlertTrends getHours startDashboard 1700000000000 (fun _ => 1#2)
               (updateAlertTrendsAll getHours emptyTrends []) in
  length (tr_labels tr') = length (tr_data tr')
  /\ (12 <= length (tr_labels tr') <= 13)%nat
  /\ last (tr_labels tr') = Some (hourLabel (getHours 1700000000000))
  /\ last (tr_data tr')
     = Some (Z.of_nat (length (List.filter
               (fun alert => getHours (al_timestamp alert) =? getHours 1700000000000)
               (alerts startDashboard)))).
Proof.
  apply (X22_alert_trends_chart_keeps_its_shape
           (fun ms : Z => (ms / 3600000) mod 24) emptyTrends []
           startDashboard 1700000000000 (fun _ => 1#2)).
  left. reflexivity.
Defined.

(** ** The pattern list *)

Lemma filter_length_pos {A} (P : A -> Prop) `{forall x, Decision (P x)} (l : list A) :
  0 < Z.of_nat (length (filter P l)) <-> Exists P l.
Proof.
  induction l as [|x l IH].
  - rewrite filter_nil, Exists_nil. cbn. lia.
  - rewrite filter_cons, Exists_cons. destruct (decide (P x)) as [Hx|Hx].
    + cbn [length]. split; [auto | lia].
    + rewrite IH. tauto.
Qed.

(** X23.  The number of active patterns shown on a reachable dashboard is
    the number of catalog patterns that at least one processed transaction
    has matched so far; it is at most 7 and, as counters are never
    decremented, it counts matches of transactions that have left the
    ledger too. *)
Theorem X23_active_patterns_are_the_catalog_tags_matched_so_far g env es :
  activePatterns (run (init g env) es)
  = Z.of_nat (length (filter
      (fun patternInfo : string * RiskLevel =>
         Exists (fun t => patternInfo.1 ∈ tx_patterns t) (fullHistory g env es))
      amlPatterns))
  /\ 0 <= activePatterns (run (init g env) es) <= 7.
Proof.
  assert (E : List.filter
                (fun patternInfo : string * RiskLevel =>
                   0 <? patternCount (run (init g env) es) patternInfo.1) amlPatterns
              = filter
                  (fun patternInfo : string * RiskLevel =>
                     Exists (fun t => patternInfo.1 ∈ tx_patterns t)
                            (fullHistory g env es))
                  amlPatterns).
  { apply bool_filter_decide. intros [p lvl]. cbn [fst].
    unfold patternCount. rewrite counters_follow_history, Z.ltb_lt.
    apply filter_length_pos. }
  unfold activePatterns. rewrite E. split; [reflexivity|].
  pose proof (length_filter
                (fun patternInfo : string * RiskLevel =>
                   Exists (fun t => patternInfo.1 ∈ tx_patterns t)
                          (fullHistory g env es)) amlPatterns) as Hle.
  cbn [amlPatterns length] in Hle. lia.
Qed.
